(** * .NET namespace-level code churn analyzer: a shallow embedding

    This development embeds the pure core of
    [scripts/dotnet-namespace-churn.py] (namespace extraction, numstat
    parsing, pattern classification, aggregation, ownership, severity
    indicators and the orchestration of [analyze]/[main]) and proves the
    properties its specification states about it.

    Conventions.
    - A Python [int] is a [Z] (unbounded, no wrap-around).
    - A Python [str] is a [string]; every [ascii] stands for one code point
      below 256.
    - A Python [dict] is an insertion-ordered association list with unique
      keys ([Dict.t]): iteration order is observable in the source
      ([max] over [items()], [sorted] over [items()]).
    - A Python [float] is a binary64 number.  Where the source compares
      ratios of integers, two readings are given: the exact rational one
      (type [Q]) and the binary64 one (Stdlib's [SpecFloat], the
      executable IEEE-754 specification).
    - A raised exception is a value of the error side of a sum type. *)

From Stdlib Require Import ZArith QArith Bool String Ascii List Lia.
From Stdlib Require Import Permutation Sorted.
From Stdlib Require Import Floats.SpecFloat.
Import ListNotations.

Open Scope string_scope.
Open Scope list_scope.
Open Scope Z_scope.

(* ===================================================================== *)
(** * Definitions                                                         *)
(* ===================================================================== *)

(** ** Python built-ins used by the script *)

Module Py.

Definition code (c : ascii) : nat := nat_of_ascii c.

Definition chr (n : nat) : ascii := ascii_of_nat n.

Definition tab : ascii := chr 9.
Definition newline : ascii := chr 10.

Definition in_range (lo hi : nat) (c : ascii) : bool :=
  (Nat.leb lo (code c)) && (Nat.leb (code c) hi).

(** [str.isspace] on one code point below 256; also the set removed by
    [str.strip()] and matched by the regular expression class [\s]. *)
Definition isspace (c : ascii) : bool :=
  in_range 9 13 c || in_range 28 32 c
  || Nat.eqb (code c) 133 || Nat.eqb (code c) 160.

Definition isdigit (c : ascii) : bool := in_range 48 57 c.

(** The regular expression class [\w] on code points below 256:
    alphanumeric code points and the underscore. *)
Definition isword (c : ascii) : bool :=
  in_range 48 57 c || in_range 65 90 c || Nat.eqb (code c) 95
  || in_range 97 122 c
  || Nat.eqb (code c) 170 || in_range 178 179 c || Nat.eqb (code c) 181
  || in_range 185 186 c || in_range 188 190 c
  || in_range 192 214 c || in_range 216 246 c || in_range 248 255 c.

(** ASCII lower-casing, as case-insensitive matching of an ASCII literal
    needs it. *)
Definition lower (c : ascii) : ascii :=
  if in_range 65 90 c then chr (code c + 32) else c.

Fixpoint lstrip_by (ws : ascii -> bool) (s : string) : string :=
  match s with
  | String c s' => if ws c then lstrip_by ws s' else s
  | EmptyString => EmptyString
  end.

Fixpoint rstrip_by (ws : ascii -> bool) (s : string) : string :=
  match s with
  | String c s' =>
      match rstrip_by ws s' with
      | EmptyString => if ws c then EmptyString else String c EmptyString
      | r => String c r
      end
  | EmptyString => EmptyString
  end.

(** [s.strip()] *)
Definition strip (s : string) : string := rstrip_by isspace (lstrip_by isspace s).

(** [s.split(sep)] for a one-character separator: the fields between
    separators, empty fields kept, at least one field. *)
Fixpoint split (sep : ascii) (s : string) : list string :=
  match s with
  | EmptyString => [EmptyString]
  | String c s' =>
      if Ascii.eqb c sep then EmptyString :: split sep s'
      else match split sep s' with
           | f :: fs => String c f :: fs
           | [] => [String c EmptyString]
           end
  end.

(** [s.startswith(p)] *)
Fixpoint startswith (s p : string) : bool :=
  match p, s with
  | EmptyString, _ => true
  | String a p', String b s' => Ascii.eqb a b && startswith s' p'
  | String _ _, EmptyString => false
  end.

(** [s.endswith(p)] *)
Definition endswith (s p : string) : bool :=
  let n := String.length s in
  let k := String.length p in
  Nat.leb k n && String.eqb (substring (n - k) k s) p.

(** [p in s] on strings *)
Fixpoint contains (s p : string) : bool :=
  startswith s p ||
  match s with
  | String _ s' => contains s' p
  | EmptyString => false
  end.

(** [sep.join(items)] *)
Fixpoint join (sep : string) (items : list string) : string :=
  match items with
  | [] => EmptyString
  | [x] => x
  | x :: rest => (x ++ sep ++ join sep rest)%string
  end.

(** Whitespace that [int()] skips around the literal: the code points
    28 to 31 are not among them. *)
Definition int_space (c : ascii) : bool :=
  in_range 9 13 c || Nat.eqb (code c) 32
  || Nat.eqb (code c) 133 || Nat.eqb (code c) 160.

Definition digit_value (c : ascii) : Z := Z.of_nat (code c - 48).

(** Decimal digits with single underscores between digits.  [prev] tells
    whether the previous character was a digit. *)
Fixpoint digits (acc : Z) (prev : bool) (s : string) : option Z :=
  match s with
  | EmptyString => if prev then Some acc else None
  | String c s' =>
      if isdigit c then digits (10 * acc + digit_value c) true s'
      else if Ascii.eqb c "_" then
             (if prev then digits acc false s' else None)
           else None
  end.

(** [int(s)]: [None] stands for [ValueError].  The interpreter's
    configurable limit on the number of digits is not modelled. *)
Definition int (s : string) : option Z :=
  let literal := rstrip_by int_space (lstrip_by int_space s) in
  match literal with
  | String c body =>
      if Ascii.eqb c "+" then digits 0 false body
      else if Ascii.eqb c "-" then option_map Z.opp (digits 0 false body)
      else digits 0 false literal
  | EmptyString => None
  end.

(** Whether a minus sign occurs in [s]. *)
Fixpoint has_minus (s : string) : bool :=
  match s with
  | EmptyString => false
  | String c s' => Ascii.eqb c "-" || has_minus s'
  end.

(** [sum(l)] *)
Definition sum (l : list Z) : Z := fold_left Z.add l 0.

(** The character of a decimal digit. *)
Definition digit_char (d : Z) : ascii := chr (48 + Z.to_nat d).

(** The decimal digits of a non-negative [n] in front of [tail]; the
    fuel bounds the number of digits after the first. *)
Fixpoint render_digits (fuel : nat) (n : Z) (tail : string) : string :=
  match fuel with
  | O => String (digit_char (n mod 10)) tail
  | S fuel' =>
      if n <? 10 then String (digit_char n) tail
      else render_digits fuel' (n / 10) (String (digit_char (n mod 10)) tail)
  end.

(** [str(n)] for an integer, also what an f-string puts for [{n}]: the
    decimal digits without leading zeros, behind a minus sign for a
    negative number. *)
Definition str (n : Z) : string :=
  if n <? 0
  then String "-" (render_digits (Z.to_nat (Z.log2 (- n))) (- n) EmptyString)
  else render_digits (Z.to_nat (Z.log2 n)) n EmptyString.

Section Ordering.
Context {A : Type} (key : A -> Z).

(** [x] goes in front of the first element whose key is not larger:
    behind every strictly larger key, before its equals. *)
Fixpoint insert_desc (x : A) (l : list A) : list A :=
  match l with
  | [] => [x]
  | y :: l' => if key x <? key y then y :: insert_desc x l' else x :: l
  end.

(** [l.sort(key=key, reverse=True)] and [sorted(l, key=key,
    reverse=True)]: the sort is stable, also in reverse, so its result
    is the one of this insertion sort. *)
Fixpoint sort_desc (l : list A) : list A :=
  match l with
  | [] => []
  | x :: l' => insert_desc x (sort_desc l')
  end.

(** Descending by key: every element is at least as large as all
    that follow it. *)
Definition descending (l : list A) : Prop :=
  StronglySorted (fun x y => key y <= key x) l.

(** [max(l, key=key)]: the first element of maximal key; [None] stands
    for the [ValueError] on an empty sequence. *)
Definition max_by (l : list A) : option A :=
  match l with
  | [] => None
  | x :: l' =>
      Some (fold_left (fun best y => if key y >? key best then y else best) l' x)
  end.
End Ordering.

End Py.

(** ** Insertion-ordered dictionaries *)

Module Dict.

(** A [dict] with [str] keys: its items in insertion order. *)
Definition t (V : Type) : Type := list (string * V).

Definition empty {V : Type} : t V := [].

Definition items {V : Type} (d : t V) : list (string * V) := d.
Definition keys {V : Type} (d : t V) : list string := map fst d.
Definition values {V : Type} (d : t V) : list V := map snd d.

(** [d.get(k)] *)
Fixpoint get {V : Type} (k : string) (d : t V) : option V :=
  match d with
  | [] => None
  | (k', v) :: d' => if String.eqb k k' then Some v else get k d'
  end.

(** [k in d] *)
Definition mem {V : Type} (k : string) (d : t V) : bool :=
  match get k d with Some _ => true | None => false end.

(** [d[k] = v]: an existing key keeps its place, a new one goes last. *)
Fixpoint set {V : Type} (k : string) (v : V) (d : t V) : t V :=
  match d with
  | [] => [(k, v)]
  | (k', v') :: d' =>
      if String.eqb k k' then (k, v) :: d' else (k', v') :: set k v d'
  end.

(** In-place update of the value stored under [k] (the source only does
    this for keys that are present). *)
Fixpoint adjust {V : Type} (k : string) (f : V -> V) (d : t V) : t V :=
  match d with
  | [] => []
  | (k', v) :: d' =>
      if String.eqb k k' then (k', f v) :: d' else (k', v) :: adjust k f d'
  end.

(** The value of a lookup, or [init] for a missing key. *)
Definition value_or {V : Type} (init : V) (o : option V) : V :=
  match o with Some v => v | None => init end.

(** The same keys, each value replaced by its image. *)
Definition map_values {V W : Type} (f : V -> W) (d : t V) : t W :=
  map (fun kv => (fst kv, f (snd kv))) d.

(** [{k: v for k, v in d.items() if keep(v)}] *)
Definition filter_values {V : Type} (keep : V -> bool) (d : t V) : t V :=
  filter (fun kv => keep (snd kv)) d.

End Dict.

(** ** Binary64 arithmetic as Python uses it *)

Module B64.

Definition prec : Z := 53.
Definition emax : Z := 1024.

(** [float(n)] for an integer [n]: rounding to nearest, ties to even.  The
    conversion is exact for [|n| < 2^53]. *)
Definition of_Z (n : Z) : spec_float := binary_normalize prec emax n 0 false.

(** For integers below [2^53] Python's [a / b] is the IEEE quotient of
    the two converted operands. *)
Definition truediv (a b : Z) : spec_float := SFdiv prec emax (of_Z a) (of_Z b).

(** [n * x] with [n] an integer and [x] a float: [float(n) * x]. *)
Definition mul_Z (n : Z) (x : spec_float) : spec_float :=
  SFmul prec emax (of_Z n) x.


(** The literal [0.7] is the double [0x1.6666666666666p-1]. *)
Definition lit_0_7 : spec_float := S754_finite false 6305039478318694 (-53).
(** The literal [0.8] is the double [0x1.999999999999ap-1]. *)
Definition lit_0_8 : spec_float := S754_finite false 7205759403792794 (-53).

(** The exact value of a finite double. *)
Definition to_Q (x : spec_float) : option Q :=
  match x with
  | S754_zero _ => Some 0%Q
  | S754_finite s m e =>
      let v := (inject_Z (Zpos m) * Qpower 2 e)%Q in
      Some (if s then Qopp v else v)
  | _ => None
  end.

(** [x >= y] on floats. *)
Definition geb (x y : spec_float) : bool := SFleb y x.

(** [n >= x] with [n] an integer: Python compares the exact values. *)
Definition Z_geb (n : Z) (x : spec_float) : bool :=
  match x with
  | S754_nan => false
  | S754_infinity s => s
  | _ => match to_Q x with
         | Some q => Qle_bool q (inject_Z n)
         | None => false
         end
  end.

End B64.

(** ** PatternDetector *)

Module PatternDetector.

(** The four labels ['churn'], ['growth'], ['cleanup'], ['normal']. *)
Inductive pattern : Type := Churn | Growth | Cleanup | Normal.

Definition pattern_name (p : pattern) : string :=
  match p with
  | Churn => "churn"
  | Growth => "growth"
  | Cleanup => "cleanup"
  | Normal => "normal"
  end.

Definition pattern_eqb (p q : pattern) : bool :=
  match p, q with
  | Churn, Churn | Growth, Growth | Cleanup, Cleanup | Normal, Normal => true
  | _, _ => false
  end.

(** [detect_pattern], every arithmetic expression of the source read in
    exact rational arithmetic. *)
Definition detect_pattern (additions deletions : Z) : pattern :=
  let total := additions + deletions in
  if total =? 0 then Normal
  else
    let additions_ratio := (inject_Z additions / inject_Z total)%Q in
    let deletions_ratio := (inject_Z deletions / inject_Z total)%Q in
    if Qle_bool 0.7 additions_ratio then Growth
    else if Qle_bool 0.7 deletions_ratio then Cleanup
    else if (additions >? 600) && (deletions >? 600)
            && Qle_bool (inject_Z additions * 0.8) (inject_Z deletions)
            && Qle_bool (inject_Z deletions * 0.8) (inject_Z additions)
         then Churn
         else Normal.

(** [detect_pattern] as Python evaluates it, in binary64. *)
Definition detect_pattern_b64 (additions deletions : Z) : pattern :=
  let total := additions + deletions in
  if total =? 0 then Normal
  else
    let additions_ratio := B64.truediv additions total in
    let deletions_ratio := B64.truediv deletions total in
    if B64.geb additions_ratio B64.lit_0_7 then Growth
    else if B64.geb deletions_ratio B64.lit_0_7 then Cleanup
    else if (additions >? 600) && (deletions >? 600)
            && B64.Z_geb deletions (B64.mul_Z additions B64.lit_0_8)
            && B64.Z_geb additions (B64.mul_Z deletions B64.lit_0_8)
         then Churn
         else Normal.


End PatternDetector.

(** ** The regular expressions of the script *)

Module Regex.

(** The fragment of [re] syntax the script uses.  A pattern is a
    sequence of atoms; repetition applies to one character class. *)
Inductive atom : Type :=
| Bol                                             (** [^] under [MULTILINE] *)
| Eol                                             (** [$] under [MULTILINE] *)
| Chr (p : ascii -> bool)                         (** one character of a class *)
| Rep (greedy : bool) (min : nat) (p : ascii -> bool)
                                                  (** [p*], [p+], [p*?] *)
| Open                                            (** [(] of group 1 *)
| Close.                                          (** [)] of group 1 *)

Definition regex : Type := list atom.

(** A literal character, and a literal character under [IGNORECASE]. *)
Definition only (c : ascii) : ascii -> bool := Ascii.eqb c.
Definition only_nocase (c : ascii) : ascii -> bool :=
  fun x => Ascii.eqb (Py.lower x) (Py.lower c).

Fixpoint lit (s : string) : regex :=
  match s with
  | EmptyString => []
  | String c s' => Chr (only c) :: lit s'
  end.

Fixpoint lit_nocase (s : string) : regex :=
  match s with
  | EmptyString => []
  | String c s' => Chr (only_nocase c) :: lit_nocase s'
  end.

(** [.] without [DOTALL], and with it. *)
Definition dot : ascii -> bool := fun c => negb (Ascii.eqb c Py.newline).
Definition dot_all : ascii -> bool := fun _ => true.

(** [\s] and the set [[\w\.]]. *)
Definition space : ascii -> bool := Py.isspace.
Definition word_or_dot : ascii -> bool := fun c => Py.isword c || Ascii.eqb c ".".

(** [^] matches at the start of the text and after a newline. *)
Definition at_bol (prev : option ascii) : bool :=
  match prev with
  | None => true
  | Some c => Ascii.eqb c Py.newline
  end.

(** [$] matches at the end of the text and before a newline. *)
Definition at_eol (rest : string) : bool :=
  match rest with
  | EmptyString => true
  | String c _ => Ascii.eqb c Py.newline
  end.

(** A successful match: where it ends, and the span of group 1. *)
Record span : Type := mk_span {
  stop : nat;
  group_start : nat;
  group_stop : nat
}.

(** Backtracking match of [r] at offset [pos]: [prev] is the character
    before [pos], [rest] the text from [pos] on.  A greedy repetition
    first tries one more character and, if the remainder of the pattern
    then fails, gives it back; a lazy one tries the remainder first. *)
Fixpoint match_here (r : regex) (prev : option ascii) (pos : nat)
  (rest : string) (gs ge : nat) {struct r} : option span :=
  match r with
  | [] => Some (mk_span pos gs ge)
  | Bol :: r' => if at_bol prev then match_here r' prev pos rest gs ge else None
  | Eol :: r' => if at_eol rest then match_here r' prev pos rest gs ge else None
  | Chr p :: r' =>
      match rest with
      | String c rest' =>
          if p c then match_here r' (Some c) (S pos) rest' gs ge else None
      | EmptyString => None
      end
  | Open :: r' => match_here r' prev pos rest pos ge
  | Close :: r' => match_here r' prev pos rest gs pos
  | Rep greedy min p :: r' =>
      (fix rep (n : nat) (prev : option ascii) (pos : nat) (rest : string)
         {struct rest} : option span :=
         if greedy then
           match
             match rest with
             | String c rest' =>
                 if p c then rep (S n) (Some c) (S pos) rest' else None
             | EmptyString => None
             end
           with
           | Some m => Some m
           | None =>
               if Nat.leb min n then match_here r' prev pos rest gs ge else None
           end
         else
           match
             (if Nat.leb min n then match_here r' prev pos rest gs ge else None)
           with
           | Some m => Some m
           | None =>
               match rest with
               | String c rest' =>
                   if p c then rep (S n) (Some c) (S pos) rest' else None
               | EmptyString => None
               end
           end) 0%nat prev pos rest
  end.

(** The repetition loop of [match_here] on its own: [continue] is the
    match of the remainder of the pattern. *)
Section Repetition.
Variable continue : option ascii -> nat -> string -> option span.
Variables (greedy : bool) (min : nat) (p : ascii -> bool).

Fixpoint rep_loop (n : nat) (prev : option ascii) (pos : nat) (rest : string)
  {struct rest} : option span :=
  if greedy then
    match
      match rest with
      | String c rest' =>
          if p c then rep_loop (S n) (Some c) (S pos) rest' else None
      | EmptyString => None
      end
    with
    | Some m => Some m
    | None => if Nat.leb min n then continue prev pos rest else None
    end
  else
    match (if Nat.leb min n then continue prev pos rest else None) with
    | Some m => Some m
    | None =>
        match rest with
        | String c rest' =>
            if p c then rep_loop (S n) (Some c) (S pos) rest' else None
        | EmptyString => None
        end
    end.
End Repetition.

(** A pattern without the parentheses of the group. *)
Fixpoint plain (r : regex) : bool :=
  match r with
  | [] => true
  | Open :: _ => false
  | Close :: _ => false
  | _ :: r' => plain r'
  end.

(** Every character of [s] is in the class [p]. *)
Fixpoint all_in (p : ascii -> bool) (s : string) : bool :=
  match s with
  | EmptyString => true
  | String c s' => p c && all_in p s'
  end.

(** A match found by [search]: where it starts, and its span. *)
Record found : Type := mk_found {
  start : nat;
  matched : span
}.

(** The scan of [search]: offsets are tried from left to right. *)
Fixpoint search_from (r : regex) (prev : option ascii) (pos : nat)
  (rest : string) : option found :=
  match match_here r prev pos rest 0 0 with
  | Some m => Some (mk_found pos m)
  | None =>
      match rest with
      | String c rest' => search_from r (Some c) (S pos) rest'
      | EmptyString => None
      end
  end.

(** [pattern.search(text)] *)
Definition search (r : regex) (text : string) : option found :=
  search_from r None 0 text.

(** The text from offset [k] on, with the character before it; [None]
    past the end. *)
Fixpoint at_offset (k : nat) (prev : option ascii) (rest : string)
  : option (option ascii * string) :=
  match k with
  | O => Some (prev, rest)
  | S k' =>
      match rest with
      | String c rest' => at_offset k' (Some c) rest'
      | EmptyString => None
      end
  end.

(** The match of [r] that starts [k] characters into [rest]. *)
Definition match_from (r : regex) (prev : option ascii) (pos : nat)
  (rest : string) (k : nat) : option span :=
  match at_offset k prev rest with
  | Some (prev', rest') => match_here r prev' (pos + k) rest' 0 0
  | None => None
  end.


(** [match.group(1)] *)
Definition group1 (text : string) (m : span) : string :=
  substring (group_start m) (group_stop m - group_start m) text.

(** The scan of [sub] with an empty replacement: [skip] characters of a
    match are still to be dropped.  A match that consumes nothing leaves
    the text as it is. *)
Fixpoint remove_from (r : regex) (skip : nat) (prev : option ascii)
  (pos : nat) (rest : string) : string :=
  match rest with
  | EmptyString => EmptyString
  | String c rest' =>
      match skip with
      | S k => remove_from r k (Some c) (S pos) rest'
      | O =>
          match match_here r prev pos rest 0 0 with
          | Some m =>
              if Nat.ltb pos (stop m)
              then remove_from r (stop m - pos - 1) (Some c) (S pos) rest'
              else String c (remove_from r 0 (Some c) (S pos) rest')
          | None => String c (remove_from r 0 (Some c) (S pos) rest')
          end
      end
  end.

(** [re.sub(pattern, '', text)] *)
Definition remove_all (r : regex) (text : string) : string :=
  remove_from r 0 None 0 text.

End Regex.

(** ** NamespaceParser *)

Module NamespaceParser.
Import Regex.

(** [^\s*namespace\s+([\w\.]+)\s*\{] with [MULTILINE] *)
Definition CSHARP_TRADITIONAL : regex :=
  [Bol; Rep true 0 space] ++ lit "namespace"
    ++ [Rep true 1 space; Open; Rep true 1 word_or_dot; Close;
        Rep true 0 space; Chr (only "{")].

(** [^\s*namespace\s+([\w\.]+)\s*;] with [MULTILINE] *)
Definition CSHARP_FILE_SCOPED : regex :=
  [Bol; Rep true 0 space] ++ lit "namespace"
    ++ [Rep true 1 space; Open; Rep true 1 word_or_dot; Close;
        Rep true 0 space; Chr (only ";")].

(** [^\s*Namespace\s+([\w\.]+)] with [MULTILINE | IGNORECASE] *)
Definition VBNET_NAMESPACE : regex :=
  [Bol; Rep true 0 space] ++ lit_nocase "Namespace"
    ++ [Rep true 1 space; Open; Rep true 1 word_or_dot; Close].

(** [//.*$] with [MULTILINE] *)
Definition LINE_COMMENT : regex := lit "//" ++ [Rep true 0 dot; Eol].

(** [/\*.*?\*/] with [DOTALL] *)
Definition BLOCK_COMMENT : regex := lit "/*" ++ [Rep false 0 dot_all] ++ lit "*/".

(** ['.*$] with [MULTILINE] *)
Definition VB_COMMENT : regex := lit "'" ++ [Rep true 0 dot; Eol].

Definition global : string := "(global)".


(** Lines joined by newlines, for writing source texts down. *)
Definition unlines (ls : list string) : string :=
  Py.join (String Py.newline EmptyString) ls.


(** The text of the unit test on commented declarations. *)
Definition commented_example : string :=
  unlines [""; "        // namespace Commented.Out";
           "        /* namespace Also.Commented */"; "";
           "        namespace Real.Namespace"; "        {";
           "            public class MyClass { }"; "        }"; "        "].

(** A file that holds only a commented-out declaration. *)
Definition only_commented_example : string := "// namespace Commented.Out".




(** A block comment whose last line holds a line-comment marker before
    the closing delimiter: the declaration is inside the comment. *)
Definition block_comment_body : string :=
  unlines [""; "namespace Commented.Out {"; "// "].

Definition block_comment_tail : string := unlines [""; "class C {}"; ""].

Definition block_commented_example : string :=
  "/*" ++ block_comment_body ++ "*/" ++ block_comment_tail.

(** The same block comment and nothing else: a file that holds only a
    commented-out declaration. *)
Definition only_block_commented_example : string :=
  "/*" ++ block_comment_body ++ "*/".


Definition _remove_comments (content filepath : string) : string :=
  if Py.endswith filepath ".cs" then
    let content := remove_all LINE_COMMENT content in
    let content := remove_all BLOCK_COMMENT content in
    content
  else if Py.endswith filepath ".vb" then
    remove_all VB_COMMENT content
  else content.

Definition _extract_csharp_namespace (content : string) : string :=
  match search CSHARP_FILE_SCOPED content with
  | Some m => group1 content (matched m)
  | None =>
      match search CSHARP_TRADITIONAL content with
      | Some m => group1 content (matched m)
      | None => global
      end
  end.

Definition _extract_vbnet_namespace (content : string) : string :=
  match search VBNET_NAMESPACE content with
  | Some m => group1 content (matched m)
  | None => global
  end.

Definition extract_namespace (content filepath : string) : string :=
  if String.eqb (Py.strip content) "" then global
  else
    let content := _remove_comments content filepath in
    if Py.endswith filepath ".cs" then _extract_csharp_namespace content
    else if Py.endswith filepath ".vb" then _extract_vbnet_namespace content
    else global.

End NamespaceParser.

(** ** GitLogParser *)

Module GitLogParser.

(** [parse_numstat_line]: [None] is the source's [None]. *)
Definition parse_numstat_line (line : string) : option (Z * Z * string) :=
  let parts := Py.split Py.tab (Py.strip line) in
  match parts with
  | [added; deleted; filepath] =>
      if String.eqb added "-" || String.eqb deleted "-" then None
      else match Py.int added, Py.int deleted with
           | Some a, Some d => Some (a, d, filepath)
           | _, _ => None
           end
  | _ => None
  end.

(** The tab character as a string, for writing lines down. *)
Definition TAB : string := String Py.tab EmptyString.

(** Lines used as examples: a text change, a binary change, and a line
    whose first count carries a minus sign. *)
Definition line_text : string :=
  "45" ++ TAB ++ "23" ++ TAB ++ "app/services/UserService.cs".
Definition line_binary : string := "-" ++ TAB ++ "-" ++ TAB ++ "app/x.png".
Definition line_signed : string := "-5" ++ TAB ++ "3" ++ TAB ++ "a.cs".

Definition is_dotnet_file (filepath : string) : bool :=
  Py.endswith filepath ".cs" || Py.endswith filepath ".vb".

End GitLogParser.

(** ** ChurnAggregator *)

(** One entry of a namespace's ['files'] list in enhanced mode. *)
Module FileDetail.
Record t : Type := mk {
  path : string;
  additions : Z;
  deletions : Z;
  total : Z
}.
End FileDetail.

(** The metrics of one namespace in enhanced mode. *)
Module Metrics.
Record t : Type := mk {
  additions : Z;
  deletions : Z;
  total : Z;
  file_count : Z;
  files : list FileDetail.t;
  pattern : PatternDetector.pattern
}.
End Metrics.

(** One entry of a namespace's ['files'] list in legacy mode. *)
Module LegacyFile.
Record t : Type := mk {
  path : string;
  lines : Z
}.
End LegacyFile.

(** The metrics of one namespace in legacy mode. *)
Module LegacyMetrics.
Record t : Type := mk {
  lines_changed : Z;
  file_count : Z;
  files : list LegacyFile.t
}.
End LegacyMetrics.

Module ChurnAggregator.

(** A legacy change: (namespace, lines_changed, filepath). *)
Definition legacy_change : Type := string * Z * string.

(** An enhanced change: (namespace, additions, deletions, filepath). *)
Definition change : Type := string * Z * Z * string.

Definition legacy_init : LegacyMetrics.t :=
  LegacyMetrics.mk 0 0 [].

(** The body of the first loop of [aggregate]. *)
Definition legacy_add (result : Dict.t LegacyMetrics.t) (c : legacy_change)
  : Dict.t LegacyMetrics.t :=
  let '(namespace, lines, filepath) := c in
  let result :=
    if negb (Dict.mem namespace result)
    then Dict.set namespace legacy_init result
    else result in
  Dict.adjust namespace
    (fun m =>
       LegacyMetrics.mk
         (LegacyMetrics.lines_changed m + lines)
         (LegacyMetrics.file_count m + 1)
         (LegacyMetrics.files m ++ [LegacyFile.mk filepath lines]))
    result.

Definition legacy_sort_files (m : LegacyMetrics.t) : LegacyMetrics.t :=
  LegacyMetrics.mk
    (LegacyMetrics.lines_changed m)
    (LegacyMetrics.file_count m)
    (Py.sort_desc LegacyFile.lines (LegacyMetrics.files m)).

Definition aggregate (changes : list legacy_change) : Dict.t LegacyMetrics.t :=
  Dict.map_values legacy_sort_files (fold_left legacy_add changes Dict.empty).

Definition init : Metrics.t :=
  Metrics.mk 0 0 0 0 [] PatternDetector.Normal.

(** The four [+=] and the [append] on the entry of the namespace. *)
Definition accumulate (additions deletions : Z) (filepath : string)
  (m : Metrics.t) : Metrics.t :=
  Metrics.mk
    (Metrics.additions m + additions)
    (Metrics.deletions m + deletions)
    (Metrics.total m + (additions + deletions))
    (Metrics.file_count m + 1)
    (Metrics.files m
       ++ [FileDetail.mk filepath additions deletions (additions + deletions)])
    (Metrics.pattern m).

(** The body of the first loop of [aggregate_with_details]. *)
Definition add_change (result : Dict.t Metrics.t) (c : change)
  : Dict.t Metrics.t :=
  let '(namespace, additions, deletions, filepath) := c in
  let result :=
    if negb (Dict.mem namespace result)
    then Dict.set namespace init result
    else result in
  Dict.adjust namespace (accumulate additions deletions filepath) result.

(** The body of the second loop: sort the files, then detect the
    pattern. *)
Definition sort_and_detect (m : Metrics.t) : Metrics.t :=
  Metrics.mk
    (Metrics.additions m)
    (Metrics.deletions m)
    (Metrics.total m)
    (Metrics.file_count m)
    (Py.sort_desc FileDetail.total (Metrics.files m))
    (PatternDetector.detect_pattern (Metrics.additions m) (Metrics.deletions m)).

Definition aggregate_with_details (changes : list change) : Dict.t Metrics.t :=
  Dict.map_values sort_and_detect (fold_left add_change changes Dict.empty).

(** For stating what the aggregate holds: the input tuples of one
    namespace, in input order, and the file summaries they stand for. *)
Definition namespace_of (c : change) : string := fst (fst (fst c)).
Definition additions_of (c : change) : Z := snd (fst (fst c)).
Definition deletions_of (c : change) : Z := snd (fst c).
Definition filepath_of (c : change) : string := snd c.

Definition records_of (ns : string) (changes : list change) : list change :=
  filter (fun c => String.eqb (namespace_of c) ns) changes.

Definition detail_of (c : change) : FileDetail.t :=
  FileDetail.mk (filepath_of c) (additions_of c) (deletions_of c)
    (additions_of c + deletions_of c).

(** What one input tuple does to the entry of its namespace. *)
Definition bump (m : Metrics.t) (c : change) : Metrics.t :=
  accumulate (additions_of c) (deletions_of c) (filepath_of c) m.

Definition entry_or_init (o : option Metrics.t) : Metrics.t :=
  match o with Some m => m | None => init end.

(** The same for the legacy tuples of [aggregate]. *)
Definition legacy_namespace_of (c : legacy_change) : string := fst (fst c).
Definition legacy_lines_of (c : legacy_change) : Z := snd (fst c).
Definition legacy_filepath_of (c : legacy_change) : string := snd c.

Definition legacy_records_of (ns : string) (changes : list legacy_change)
  : list legacy_change :=
  filter (fun c => String.eqb (legacy_namespace_of c) ns) changes.

Definition legacy_detail_of (c : legacy_change) : LegacyFile.t :=
  LegacyFile.mk (legacy_filepath_of c) (legacy_lines_of c).

Definition legacy_bump (m : LegacyMetrics.t) (c : legacy_change) : LegacyMetrics.t :=
  LegacyMetrics.mk
    (LegacyMetrics.lines_changed m + legacy_lines_of c)
    (LegacyMetrics.file_count m + 1)
    (LegacyMetrics.files m ++ [legacy_detail_of c]).

Definition legacy_entry_or_init (o : option LegacyMetrics.t) : LegacyMetrics.t :=
  match o with Some m => m | None => legacy_init end.

(** The legacy tuple [_analyze_repository] stores for a change. *)
Definition to_legacy (c : change) : legacy_change :=
  (namespace_of c, additions_of c + deletions_of c, filepath_of c).

(** The legacy file summary that corresponds to an enhanced one. *)
Definition file_to_legacy (f : FileDetail.t) : LegacyFile.t :=
  LegacyFile.mk (FileDetail.path f) (FileDetail.total f).

(** The names of a list in the order of their first occurrence; [seen]
    holds the names met so far. *)
Fixpoint first_seen (seen : list string) (names : list string) : list string :=
  match names with
  | [] => []
  | n :: names' =>
      if existsb (String.eqb n) seen then first_seen seen names'
      else n :: first_seen (n :: seen) names'
  end.

(** The legacy metrics that correspond to enhanced ones. *)
Definition metrics_to_legacy (m : Metrics.t) : LegacyMetrics.t :=
  LegacyMetrics.mk (Metrics.total m) (Metrics.file_count m)
    (map file_to_legacy (Metrics.files m)).

Definition sort_by_churn (aggregated : Dict.t LegacyMetrics.t)
  : list (string * LegacyMetrics.t) :=
  Py.sort_desc (fun x => LegacyMetrics.lines_changed (snd x)) (Dict.items aggregated).

Definition filter_by_threshold (aggregated : Dict.t LegacyMetrics.t)
  (min_threshold : Z) : Dict.t LegacyMetrics.t :=
  Dict.filter_values
    (fun metrics => LegacyMetrics.lines_changed metrics >=? min_threshold)
    aggregated.

(** The threshold filter [analyze] applies in enhanced mode. *)
Definition filter_total (aggregated : Dict.t Metrics.t) (min_threshold : Z)
  : Dict.t Metrics.t :=
  Dict.filter_values
    (fun metrics => Metrics.total metrics >=? min_threshold)
    aggregated.

(** The enhanced-mode ordering of [analyze]. *)
Definition sort_by_total (filtered : Dict.t Metrics.t)
  : list (string * Metrics.t) :=
  Py.sort_desc (fun x => Metrics.total (snd x)) (Dict.items filtered).

End ChurnAggregator.

(** ** OutputFormatter and ConsoleFormatter *)

(** Display text outside the range of [string]: a sequence of Unicode code
    points. *)
Definition glyphs : Type := list N.

Module Glyph.
(** U+1F525 FIRE *)
Definition fire : glyphs := [0x1F525%N].
(** U+26A0 WARNING SIGN, U+FE0F VARIATION SELECTOR-16 *)
Definition warning : glyphs := [0x26A0%N; 0xFE0F%N].
(** U+2713 CHECK MARK *)
Definition check : glyphs := [0x2713%N].
(** U+26A1 HIGH VOLTAGE SIGN *)
Definition high_voltage : glyphs := [0x26A1%N].
(** U+1F4C8 CHART WITH UPWARDS TREND *)
Definition chart_up : glyphs := [0x1F4C8%N].
(** U+1F4C9 CHART WITH DOWNWARDS TREND *)
Definition chart_down : glyphs := [0x1F4C9%N].
(** The empty string. *)
Definition none : glyphs := [].
End Glyph.

Module OutputFormatter.

Definition HOTSPOT_THRESHOLD : Z := 1000.
Definition WARNING_THRESHOLD : Z := 500.

Definition get_indicator (lines_changed : Z) : glyphs :=
  if lines_changed >? HOTSPOT_THRESHOLD then Glyph.fire
  else if lines_changed >? WARNING_THRESHOLD then Glyph.warning
  else Glyph.check.

(** [PatternDetector.get_pattern_indicator] on the four labels. *)
Definition get_pattern_indicator (p : PatternDetector.pattern) : glyphs :=
  match p with
  | PatternDetector.Churn => Glyph.high_voltage
  | PatternDetector.Growth => Glyph.chart_up
  | PatternDetector.Cleanup => Glyph.chart_down
  | PatternDetector.Normal => Glyph.none
  end.

Definition get_combined_indicator (total_lines : Z)
  (p : PatternDetector.pattern) : glyphs :=
  get_indicator total_lines ++ get_pattern_indicator p.

(** One row of [format_csv].  Every metrics dict of the legacy mode has
    the key ['lines_changed'], so the fall-back to ['total'] is not
    taken. *)
Definition csv_row (row : string * LegacyMetrics.t) : string :=
  (fst row ++ "," ++ Py.str (LegacyMetrics.lines_changed (snd row))
   ++ "," ++ Py.str (LegacyMetrics.file_count (snd row)))%string.

Definition format_csv (data : list (string * LegacyMetrics.t)) : string :=
  Py.join (String Py.newline EmptyString)
    ("namespace,lines_changed,file_count" :: map csv_row data).

(** One row of [format_csv_enhanced]; the aggregator always sets
    ['pattern']. *)
Definition csv_row_enhanced (row : string * Metrics.t) : string :=
  (fst row ++ "," ++ Py.str (Metrics.additions (snd row))
   ++ "," ++ Py.str (Metrics.deletions (snd row))
   ++ "," ++ Py.str (Metrics.total (snd row))
   ++ "," ++ Py.str (Metrics.file_count (snd row))
   ++ "," ++ PatternDetector.pattern_name (Metrics.pattern (snd row)))%string.

Definition format_csv_enhanced (data : list (string * Metrics.t)) : string :=
  Py.join (String Py.newline EmptyString)
    ("namespace,added,deleted,total,files,pattern" :: map csv_row_enhanced data).

(** The fields a reader of the export expects in a row. *)
Definition csv_fields (row : string * LegacyMetrics.t) : list string :=
  [fst row; Py.str (LegacyMetrics.lines_changed (snd row));
   Py.str (LegacyMetrics.file_count (snd row))].

Definition csv_fields_enhanced (row : string * Metrics.t) : list string :=
  [fst row; Py.str (Metrics.additions (snd row));
   Py.str (Metrics.deletions (snd row)); Py.str (Metrics.total (snd row));
   Py.str (Metrics.file_count (snd row));
   PatternDetector.pattern_name (Metrics.pattern (snd row))].

(** A text that holds neither a comma nor a line break. *)
Definition csv_safe (s : string) : bool :=
  negb (Py.contains s ",") && negb (Py.contains s (String Py.newline EmptyString)).

End OutputFormatter.

Module ConsoleFormatter.

(** [sum(1 for _, m in data if cond(m))] *)
Definition count_if {A : Type} (cond : A -> bool) (data : list (string * A)) : Z :=
  Py.sum (map (fun _ => 1) (filter (fun x => cond (snd x)) data)).

(** The numbers [format_enhanced_console] prints in its trailing
    summary line. *)
Record summary : Type := mk_summary {
  total_namespaces : Z;
  hotspots : Z;
  warnings : Z;
  churn : Z
}.

Definition enhanced_summary (data : list (string * Metrics.t)) : summary :=
  mk_summary
    (Z.of_nat (List.length data))
    (count_if (fun m => Metrics.total m >? 1000) data)
    (count_if (fun m => (500 <? Metrics.total m) && (Metrics.total m <=? 1000)) data)
    (count_if (fun m => PatternDetector.pattern_eqb (Metrics.pattern m)
                          PatternDetector.Churn) data).

(** The severity column of one row of [format_enhanced_console]. *)
Definition severity_indicator (m : Metrics.t) : glyphs :=
  OutputFormatter.get_indicator (Metrics.total m).

End ConsoleFormatter.

(** ** AuthorshipAnalyzer *)

Module Ownership.
Record t : Type := mk {
  primary_author : string;
  primary_lines : Z;
  total_lines : Z;
  (** The exact value of the quotient the source computes in floating
      point. *)
  ownership_percent : Q;
  all_authors : Dict.t Z
}.
End Ownership.

Module AuthorshipAnalyzer.

(** One observation of an author: (namespace, filepath, lines). *)
Definition observation : Type := string * string * Z.

(** What the inner loop does to the authors of the namespace: the
    author is entered with 0 lines if new, then credited. *)
Definition credit (author : string) (lines : Z) (authors : Dict.t Z) : Dict.t Z :=
  let authors :=
    if negb (Dict.mem author authors)
    then Dict.set author 0 authors
    else authors in
  Dict.adjust author (fun n => n + lines) authors.

(** The body of the inner loop of the first phase. *)
Definition add_observation (author : string)
  (namespace_authors : Dict.t (Dict.t Z)) (o : observation)
  : Dict.t (Dict.t Z) :=
  let '(namespace, filepath, lines) := o in
  let namespace_authors :=
    if negb (Dict.mem namespace namespace_authors)
    then Dict.set namespace Dict.empty namespace_authors
    else namespace_authors in
  Dict.adjust namespace (credit author lines) namespace_authors.

(** The first phase: lines per namespace per author. *)
Definition collect (author_changes : Dict.t (list observation))
  : Dict.t (Dict.t Z) :=
  fold_left
    (fun namespace_authors ac =>
       fold_left (add_observation (fst ac)) (snd ac) namespace_authors)
    (Dict.items author_changes) Dict.empty.

Definition percent (primary_lines total_lines : Z) : Q :=
  if total_lines >? 0
  then (inject_Z primary_lines / inject_Z total_lines * 100)%Q
  else 0%Q.


(** The entry of one namespace; [None] stands for the [ValueError] of
    [max] on an empty sequence. *)
Definition entry (authors : Dict.t Z) : option Ownership.t :=
  let total_lines := Py.sum (Dict.values authors) in
  match Py.max_by snd (Dict.items authors) with
  | None => None
  | Some primary_author =>
      Some (Ownership.mk
              (fst primary_author)
              (snd primary_author)
              total_lines
              (percent (snd primary_author) total_lines)
              authors)
  end.

(** The second phase. *)
Fixpoint build (items : list (string * Dict.t Z)) (ownership : Dict.t Ownership.t)
  : option (Dict.t Ownership.t) :=
  match items with
  | [] => Some ownership
  | (namespace, authors) :: rest =>
      match entry authors with
      | None => None
      | Some e => build rest (Dict.set namespace e ownership)
      end
  end.

Definition calculate_ownership (author_changes : Dict.t (list observation))
  : option (Dict.t Ownership.t) :=
  build (Dict.items (collect author_changes)) Dict.empty.

(** For stating what the ownership holds: every observation of the
    input with its author, in iteration order, and the sums taken over
    them. *)
Definition namespace_of (o : observation) : string := fst (fst o).













End AuthorshipAnalyzer.

(** ** GitCommandBuilder *)

Module GitCommandBuilder.

Definition VALID_PERIODS : list string := ["1 month"; "3 months"; "1 year"].

(** The double-quote character. *)
Definition dq : string := String (Py.chr 34) EmptyString.

(** [if s:] on an optional string. *)
Definition truthy (s : option string) : option string :=
  match s with
  | Some EmptyString => None
  | other => other
  end.

Definition build_log_command (period : string) (submodule_path : option string)
  : string :=
  let base_cmd :=
    match truthy submodule_path with
    | Some sp => ("git -C " ++ sp)%string
    | None => "git"
    end in
  Py.join " "
    [base_cmd; "log"; ("--since=" ++ dq ++ period ++ dq)%string; "--numstat";
     "--pretty=format:''"; "--"; "*.cs"; "*.vb"].

(** [period in self.VALID_PERIODS] *)
Definition is_valid_period (period : string) : bool :=
  existsb (String.eqb period) VALID_PERIODS.

End GitCommandBuilder.

(** ** NamespaceChurnAnalyzer and [main] *)

Module Analyzer.

(** Rendered output may hold code points above 255. *)
Definition text : Type := list N.

Definition text_of (s : string) : text :=
  map (fun c => N.of_nat (Py.code c)) (list_ascii_of_string s).

(** The exceptions the script raises itself. *)
Inductive exn : Type :=
| ValueError (msg : string)
| RuntimeError (msg : string).

(** [str(e)] *)
Definition message (e : exn) : string :=
  match e with
  | ValueError m => m
  | RuntimeError m => m
  end.

(** What the process does to its environment, in order. *)
Inductive event : Type :=
| Shell (cmd : string)              (** [subprocess.run(cmd, shell=True)] *)
| Exec (argv : list string)         (** [subprocess.run(argv)] *)
| OpenRead (path : string)          (** [open(path).read()] *)
| Probe (path : string)             (** [os.path.exists], [os.path.isdir] *)
| Print (out : text)                (** [print(out)] *)
| PrintErr (out : text).            (** [print(out, file=sys.stderr)] *)

(** A computation that may raise and that extends the trace of events. *)
Definition M (A : Type) : Type := list event -> (exn + A) * list event.

Definition ret {A : Type} (a : A) : M A := fun tr => (inr a, tr).

Definition raise {A : Type} (e : exn) : M A := fun tr => (inl e, tr).

Definition bind {A B : Type} (c : M A) (k : A -> M B) : M B :=
  fun tr =>
    match c tr with
    | (inl e, tr') => (inl e, tr')
    | (inr a, tr') => k a tr'
    end.

Definition emit (e : event) : M unit := fun tr => (inr tt, tr ++ [e]).

Notation "x <- c ;; k" := (bind c (fun x => k))
  (at level 61, c at next level, right associativity).

Fixpoint for_each {A B : Type} (f : A -> M B) (l : list A) : M (list B) :=
  match l with
  | [] => ret []
  | x :: l' => y <- f x ;; ys <- for_each f l' ;; ret (y :: ys)
  end.

(** The result of a finished child process. *)
Record proc : Type := mk_proc {
  returncode : Z;
  stdout : string;
  stderr : string
}.

(** The environment the script runs in. *)
Record World : Type := mk_World {
  shell : string -> proc;
  exec : list string -> proc;
  (** [None] stands for [IOError]/[OSError]. *)
  read : string -> option string;
  isdir : string -> bool
}.

(** The parts of the script this embedding does not look into: the
    discovery of submodules, the authorship log, and all rendering of
    text. *)
Record Collaborators : Type := mk_Collaborators {
  get_submodules : M (list string);
  get_author_changes :
    string -> option string -> M (Dict.t (list AuthorshipAnalyzer.observation));
  format_csv : list (string * LegacyMetrics.t) -> text;
  format_csv_enhanced : list (string * Metrics.t) -> text;
  format_console : list (string * LegacyMetrics.t) -> text;
  format_detailed_console : list (string * LegacyMetrics.t) -> bool -> text;
  format_enhanced_console : list (string * Metrics.t) -> bool -> text;
  format_ownership_report : Dict.t Ownership.t -> text;
  below_threshold_message : Z -> text
}.

(** [os.path.join(a, b)] *)
Definition path_join (a b : string) : string :=
  if Py.startswith b "/" then b
  else if String.eqb a "" || Py.endswith a "/" then (a ++ b)%string
  else (a ++ "/" ++ b)%string.

Section Run.
Variable w : World.
Variable co : Collaborators.

Definition run_shell (cmd : string) : M proc :=
  _ <- emit (Shell cmd) ;; ret (shell w cmd).

Definition run_exec (argv : list string) : M proc :=
  _ <- emit (Exec argv) ;; ret (exec w argv).

Definition _extract_namespace_from_file (filepath : string)
  (submodule_path : option string) : M string :=
  let full_path :=
    match GitCommandBuilder.truthy submodule_path with
    | Some sp => path_join sp filepath
    | None => filepath
    end in
  _ <- emit (OpenRead full_path) ;;
  match read w full_path with
  | Some content => ret (NamespaceParser.extract_namespace content filepath)
  | None => ret NamespaceParser.global
  end.

(** The loop body of [_analyze_repository]: the changes one line of the
    log contributes. *)
Definition repository_line (submodule_path : option string) (line : string)
  : M (list ChurnAggregator.change) :=
  if String.eqb line "" then ret []
  else
    match GitLogParser.parse_numstat_line line with
    | None => ret []
    | Some (added, deleted, filepath) =>
        if negb (GitLogParser.is_dotnet_file filepath) then ret []
        else
          namespace <- _extract_namespace_from_file filepath submodule_path ;;
          ret [(namespace, added, deleted, filepath)]
    end.

(** [_analyze_repository].  In legacy mode the source stores
    [(namespace, added + deleted, filepath)]; here the two counts stay
    apart until [to_legacy]. *)
Definition _analyze_repository (period : string)
  (submodule_path : option string) : M (list ChurnAggregator.change) :=
  let cmd := GitCommandBuilder.build_log_command period submodule_path in
  result <- run_shell cmd ;;
  if negb (returncode result =? 0) then
    if Py.contains (stderr result) "not a git repository"
    then raise (RuntimeError "Not a git repository. Run from repository root.")
    else ret []
  else
    per_line <- for_each (repository_line submodule_path)
                  (Py.split Py.newline (Py.strip (stdout result))) ;;
    ret (concat per_line).

(** The loop body of [SubmoduleAnalyzer.analyze_submodule]. *)
Definition submodule_line (submodule_path line : string)
  : list (string * Z * Z * string) :=
  if String.eqb line "" then []
  else
    match GitLogParser.parse_numstat_line line with
    | None => []
    | Some (added, deleted, filepath) =>
        if GitLogParser.is_dotnet_file filepath
        then [(submodule_path, added, deleted, (submodule_path ++ "/" ++ filepath)%string)]
        else []
    end.

(** [SubmoduleAnalyzer.analyze_submodule] *)
Definition analyze_submodule (submodule_path period : string)
  : M (option (list (string * Z * Z * string))) :=
  _ <- emit (Probe submodule_path) ;;
  if negb (isdir w submodule_path) then ret None
  else
    check <- run_exec ["git"; "-C"; submodule_path; "rev-parse"; "--git-dir"] ;;
    if negb (returncode check =? 0) then ret None
    else
      let cmd := GitCommandBuilder.build_log_command period (Some submodule_path) in
      result <- run_shell cmd ;;
      if negb (returncode result =? 0) then ret None
      else
        ret (Some (flat_map (submodule_line submodule_path)
                     (Py.split Py.newline (Py.strip (stdout result))))).

Definition _analyze_submodule_changes (submodule_path period : string)
  : M (list ChurnAggregator.change) :=
  results <- analyze_submodule submodule_path period ;;
  match results with
  | None | Some [] => ret []
  | Some results =>
      for_each
        (fun r =>
           let '(_, added, deleted, filepath) := r in
           namespace <- _extract_namespace_from_file filepath None ;;
           ret (namespace, added, deleted, filepath))
        results
  end.

Definition to_legacy (c : ChurnAggregator.change) : ChurnAggregator.legacy_change :=
  let '(namespace, added, deleted, filepath) := c in
  (namespace, added + deleted, filepath).

(** [all_author_changes[author].extend(changes)] for every item. *)
Definition merge_author_changes
  (all_author_changes new_changes : Dict.t (list AuthorshipAnalyzer.observation))
  : Dict.t (list AuthorshipAnalyzer.observation) :=
  fold_left
    (fun all ac =>
       let all := if negb (Dict.mem (fst ac) all)
                  then Dict.set (fst ac) [] all else all in
       Dict.adjust (fst ac) (fun l => l ++ snd ac) all)
    (Dict.items new_changes) all_author_changes.

(** The authorship block [analyze] appends in legacy console mode. *)
Definition append_ownership (period : string) (submodules : list string)
  (output : text) : M text :=
  parent_author_changes <- get_author_changes co period None ;;
  sub_author_changes <-
    for_each (fun sm => get_author_changes co period (Some sm)) submodules ;;
  let all_author_changes :=
    fold_left merge_author_changes sub_author_changes
      (merge_author_changes Dict.empty parent_author_changes) in
  match all_author_changes with
  | [] => ret output
  | _ =>
      match AuthorshipAnalyzer.calculate_ownership all_author_changes with
      | None => raise (ValueError "max() arg is an empty sequence")
      | Some [] => ret output
      | Some ownership => ret (output ++ format_ownership_report co ownership)
      end
  end.

Definition invalid_period_message : string :=
  ("Invalid period. Use: " ++ Py.join ", " GitCommandBuilder.VALID_PERIODS)%string.

Definition analyze (period : string) (min_threshold : Z)
  (output_format : string) (show_details enhanced : bool) : M text :=
  if negb (GitCommandBuilder.is_valid_period period)
  then raise (ValueError invalid_period_message)
  else
    parent_changes <- _analyze_repository period None ;;
    submodules <- get_submodules co ;;
    sub_changes <-
      for_each (fun sm => _analyze_submodule_changes sm period) submodules ;;
    let all_changes := parent_changes ++ concat sub_changes in
    match all_changes with
    | [] => ret (text_of "No .NET code changes found in the specified period.")
    | _ =>
        if enhanced then
          let aggregated := ChurnAggregator.aggregate_with_details all_changes in
          let filtered := ChurnAggregator.filter_total aggregated min_threshold in
          match filtered with
          | [] => ret (below_threshold_message co min_threshold)
          | _ =>
              let sorted_data := ChurnAggregator.sort_by_total filtered in
              ret (if String.eqb output_format "csv"
                   then format_csv_enhanced co sorted_data
                   else format_enhanced_console co sorted_data show_details)
          end
        else
          let aggregated := ChurnAggregator.aggregate (map to_legacy all_changes) in
          let filtered := ChurnAggregator.filter_by_threshold aggregated min_threshold in
          match filtered with
          | [] => ret (below_threshold_message co min_threshold)
          | _ =>
              let sorted_data := ChurnAggregator.sort_by_churn filtered in
              let output :=
                if String.eqb output_format "csv"
                then format_csv co sorted_data
                else if show_details
                     then format_detailed_console co sorted_data true
                     else format_console co sorted_data in
              if String.eqb output_format "console"
              then append_ownership period submodules output
              else ret output
          end
    end.

(** The command line after [argparse] has accepted it. *)
Record args : Type := mk_args {
  arg_period : string;
  arg_threshold : Z;
  arg_format : string;
  arg_detailed : bool;
  arg_enhanced : bool
}.

(** [main] from [args = parser.parse_args()] on: the value is the exit
    code.  [except Exception] catches every [exn]. *)
Definition main (a : args) : list event -> Z * list event :=
  fun tr =>
    let detailed := if arg_enhanced a then true else arg_detailed a in
    match analyze (arg_period a) (arg_threshold a) (arg_format a)
            detailed (arg_enhanced a) tr with
    | (inr output, tr') => (0, tr' ++ [Print output])
    | (inl e, tr') => (1, tr' ++ [PrintErr (text_of ("Error: " ++ message e)%string)])
    end.

End Run.

(** For stating what the history stage does: the lines of a log, the
    records its .NET lines parse to, the path a file is opened under, and
    the namespace read from it. *)
Definition numstat_lines (out : string) : list string :=
  Py.split Py.newline (Py.strip out).

Definition line_records (line : string) : list (Z * Z * string) :=
  match GitLogParser.parse_numstat_line line with
  | Some (added, deleted, filepath) =>
      if GitLogParser.is_dotnet_file filepath then [(added, deleted, filepath)] else []
  | None => []
  end.

Definition dotnet_records (out : string) : list (Z * Z * string) :=
  flat_map line_records (numstat_lines out).

Definition full_path (submodule_path : option string) (filepath : string) : string :=
  match GitCommandBuilder.truthy submodule_path with
  | Some sp => path_join sp filepath
  | None => filepath
  end.

Definition namespace_at (w : World) (submodule_path : option string)
  (filepath : string) : string :=
  match read w (full_path submodule_path filepath) with
  | Some content => NamespaceParser.extract_namespace content filepath
  | None => NamespaceParser.global
  end.

Definition change_at (w : World) (submodule_path : option string)
  (r : Z * Z * string) : ChurnAggregator.change :=
  (namespace_at w submodule_path (snd r), fst (fst r), snd (fst r), snd r).

Definition open_event (submodule_path : option string) (r : Z * Z * string) : event :=
  OpenRead (full_path submodule_path (snd r)).

(** The record of a submodule line: the path gets the submodule path
    in front. *)
Definition prefixed (submodule_path : string) (r : Z * Z * string)
  : Z * Z * string :=
  (fst (fst r), snd (fst r), (submodule_path ++ "/" ++ snd r)%string).

Definition rev_parse (submodule_path : string) : list string :=
  ["git"; "-C"; submodule_path; "rev-parse"; "--git-dir"].

Definition not_a_repository : string :=
  "Not a git repository. Run from repository root.".


(** An environment whose history command fails with the given status
    and error text. *)
Definition failing_world (status : Z) (err : string) : World :=
  mk_World (fun _ => mk_proc status "" err) (fun _ => mk_proc 0 "" "")
    (fun _ => None) (fun _ => false).

(** An environment in which every command succeeds with empty output
    and no file can be read, and collaborators that find nothing and
    render nothing: enough to run [analyze] and [main] on. *)
Definition quiet_world : World :=
  mk_World (fun _ => mk_proc 0 "" "") (fun _ => mk_proc 0 "" "")
    (fun _ => None) (fun _ => false).

Definition quiet_collaborators : Collaborators :=
  mk_Collaborators (ret []) (fun _ _ => ret Dict.empty)
    (fun _ => []) (fun _ => []) (fun _ => []) (fun _ _ => [])
    (fun _ _ => []) (fun _ => []) (fun _ => []).

End Analyzer.

(* ===================================================================== *)
(** * Theorems                                                            *)
(* ===================================================================== *)

Section PatternDetectorFacts.
Import PatternDetector.




End PatternDetectorFacts.


(** Where the two readings part: from totals of about [10^15] on, the
    rounding of the quotient can lift a ratio just below 7/10 onto the
    double nearest to 0.7. *)
Lemma detect_pattern_readings_differ :
  PatternDetector.detect_pattern 1400000000000002 600000000000001
  = PatternDetector.Normal
  /\ PatternDetector.detect_pattern_b64 1400000000000002 600000000000001
     = PatternDetector.Growth.
Proof. split; vm_compute; reflexivity. Qed.


Section GitLogParserFacts.
Import GitLogParser.

Lemma digits_lower_bound (s : string) :
  forall acc prev z, 0 <= acc -> Py.digits acc prev s = Some z -> 0 <= z.
Proof.
  induction s as [|c s IH]; intros acc prev z Hacc H; cbn [Py.digits] in H.
  - destruct prev; [injection H as <-; exact Hacc | discriminate].
  - destruct (Py.isdigit c).
    + eapply IH; [|exact H]. unfold Py.digit_value. lia.
    + destruct (Ascii.eqb c "_"); [|discriminate].
      destruct prev; [|discriminate].
      eapply IH; eassumption.
Qed.

Lemma has_minus_lstrip (ws : ascii -> bool) (s : string) :
  Py.has_minus (Py.lstrip_by ws s) = true -> Py.has_minus s = true.
Proof.
  induction s as [|c s IH]; cbn [Py.lstrip_by Py.has_minus]; [easy|].
  destruct (ws c); cbn [Py.has_minus]; [|easy].
  intros H. rewrite (IH H). apply orb_true_r.
Qed.

Lemma has_minus_rstrip (ws : ascii -> bool) (s : string) :
  Py.has_minus (Py.rstrip_by ws s) = true -> Py.has_minus s = true.
Proof.
  induction s as [|c s IH]; cbn [Py.rstrip_by Py.has_minus]; [easy|].
  destruct (Py.rstrip_by ws s) as [|c' r] eqn:Hr.
  - destruct (ws c); cbn [Py.has_minus]; [discriminate|].
    rewrite orb_false_r. intros ->. reflexivity.
  - change (Py.has_minus (String c (String c' r)))
      with (Ascii.eqb c "-" || Py.has_minus (String c' r)).
    destruct (Ascii.eqb c "-"); [reflexivity|].
    cbn [orb]. exact IH.
Qed.

(** [int] yields a negative number only for a literal with a minus
    sign. *)
Lemma int_negative_has_minus (f : string) (z : Z) :
  Py.int f = Some z -> z < 0 -> Py.has_minus f = true.
Proof.
  unfold Py.int. intros H Hz.
  apply (has_minus_lstrip Py.int_space), (has_minus_rstrip Py.int_space).
  destruct (Py.rstrip_by Py.int_space (Py.lstrip_by Py.int_space f))
    as [|c body] eqn:Hl; [discriminate|].
  cbn [Py.has_minus].
  destruct (Ascii.eqb c "+") eqn:Hplus.
  - apply digits_lower_bound in H; lia.
  - destruct (Ascii.eqb c "-"); [reflexivity|].
    apply digits_lower_bound in H; lia.
Qed.

Lemma parse_numstat_line_fields (line : string) (a d : Z) (p : string) :
  parse_numstat_line line = Some (a, d, p) <->
  exists fa fd : string,
    Py.split Py.tab (Py.strip line) = [fa; fd; p]
    /\ fa <> "-" /\ fd <> "-"
    /\ Py.int fa = Some a /\ Py.int fd = Some d.
Proof.
  unfold parse_numstat_line. split.
  - destruct (Py.split Py.tab (Py.strip line)) as [|fa [|fd [|p' [|? ?]]]];
      try discriminate.
    destruct (String.eqb fa "-") eqn:Ea; [discriminate|].
    destruct (String.eqb fd "-") eqn:Ed; [discriminate|].
    cbn [orb].
    destruct (Py.int fa) as [a'|] eqn:Ia; [|discriminate].
    destruct (Py.int fd) as [d'|] eqn:Id; [|discriminate].
    intros H. injection H as <- <- <-.
    exists fa, fd. apply String.eqb_neq in Ea, Ed.
    repeat (split; [solve [reflexivity | assumption]|]); assumption.
  - intros (fa & fd & Hs & Ha & Hd & Ia & Id).
    rewrite Hs. apply String.eqb_neq in Ha, Hd.
    rewrite Ha, Hd, Ia, Id. reflexivity.
Qed.

End GitLogParserFacts.

(** ** Facts about dictionaries *)

Section DictFacts.
Context {V : Type}.
Implicit Types (d : Dict.t V) (k : string) (v : V).

Lemma get_set_eq k v d : Dict.get k (Dict.set k v d) = Some v.
Proof.
  induction d as [|[k' v'] d IH]; cbn [Dict.set Dict.get].
  - now rewrite String.eqb_refl.
  - destruct (String.eqb k k') eqn:E; cbn [Dict.get]; now rewrite ?E, ?String.eqb_refl.
Qed.

Lemma get_set_ne k k' v d :
  k <> k' -> Dict.get k' (Dict.set k v d) = Dict.get k' d.
Proof.
  intros Hne. induction d as [|[k0 v0] d IH]; cbn [Dict.set Dict.get].
  - destruct (String.eqb k' k) eqn:E; [|reflexivity].
    apply String.eqb_eq in E. congruence.
  - destruct (String.eqb k k0) eqn:E; cbn [Dict.get].
    + apply String.eqb_eq in E. subst k0.
      destruct (String.eqb k' k) eqn:E'; [|reflexivity].
      apply String.eqb_eq in E'. congruence.
    + now rewrite IH.
Qed.

Lemma get_adjust_eq k (f : V -> V) d :
  Dict.get k (Dict.adjust k f d) = option_map f (Dict.get k d).
Proof.
  induction d as [|[k' v'] d IH]; cbn [Dict.adjust Dict.get]; [reflexivity|].
  destruct (String.eqb k k') eqn:E; cbn [Dict.get]; now rewrite E.
Qed.

Lemma get_adjust_ne k k' (f : V -> V) d :
  k <> k' -> Dict.get k' (Dict.adjust k f d) = Dict.get k' d.
Proof.
  intros Hne. induction d as [|[k0 v0] d IH]; cbn [Dict.adjust Dict.get]; [reflexivity|].
  destruct (String.eqb k k0) eqn:E; cbn [Dict.get].
  - apply String.eqb_eq in E. subst k0.
    destruct (String.eqb k' k) eqn:E'; [|reflexivity].
    apply String.eqb_eq in E'. congruence.
  - now rewrite IH.
Qed.

Lemma keys_adjust k (f : V -> V) d : Dict.keys (Dict.adjust k f d) = Dict.keys d.
Proof.
  unfold Dict.keys.
  induction d as [|[k' v'] d IH]; cbn [Dict.adjust map]; [reflexivity|].
  destruct (String.eqb k k'); cbn [map fst]; now rewrite ?IH.
Qed.

Lemma get_None_keys k d : Dict.get k d = None <-> ~ In k (Dict.keys d).
Proof.
  unfold Dict.keys.
  induction d as [|[k' v'] d IH]; cbn [Dict.get map fst In].
  - tauto.
  - destruct (String.eqb k k') eqn:E.
    + apply String.eqb_eq in E. subst. split; [discriminate|tauto].
    + apply String.eqb_neq in E. rewrite IH. split.
      * intros H [H'|H']; [congruence|tauto].
      * tauto.
Qed.

Lemma keys_set_fresh k v d :
  Dict.get k d = None -> Dict.keys (Dict.set k v d) = Dict.keys d ++ [k].
Proof.
  unfold Dict.keys.
  induction d as [|[k' v'] d IH]; cbn [Dict.set Dict.get map fst app]; [reflexivity|].
  destruct (String.eqb k k'); [discriminate|].
  intros H. cbn [map fst]. now rewrite IH.
Qed.

Lemma keys_set_present k v d :
  Dict.get k d <> None -> Dict.keys (Dict.set k v d) = Dict.keys d.
Proof.
  unfold Dict.keys.
  induction d as [|[k' v'] d IH]; cbn [Dict.set Dict.get map fst]; [congruence|].
  destruct (String.eqb k k') eqn:E; cbn [map fst].
  - apply String.eqb_eq in E. now subst.
  - intros H. now rewrite IH.
Qed.

Lemma get_In k v d : Dict.get k d = Some v -> In (k, v) (Dict.items d).
Proof.
  unfold Dict.items.
  induction d as [|[k' v'] d IH]; cbn [Dict.get In]; [discriminate|].
  destruct (String.eqb k k') eqn:E.
  - apply String.eqb_eq in E. intros H. injection H as ->. subst. now left.
  - intros H. right. now apply IH.
Qed.

Lemma In_get k v d :
  NoDup (Dict.keys d) -> In (k, v) (Dict.items d) -> Dict.get k d = Some v.
Proof.
  unfold Dict.items, Dict.keys.
  induction d as [|[k' v'] d IH]; cbn [Dict.get In map fst]; [tauto|].
  intros Hnd [H|H].
  - injection H as -> ->. now rewrite String.eqb_refl.
  - inversion Hnd as [|? ? Hnotin Hnd']; subst.
    destruct (String.eqb k k') eqn:E.
    + apply String.eqb_eq in E. subst k'.
      exfalso. apply Hnotin. apply (in_map fst) in H. exact H.
    + now apply IH.
Qed.

Lemma In_filter_values (keep : V -> bool) k v d :
  In (k, v) (Dict.items (Dict.filter_values keep d))
  <-> In (k, v) (Dict.items d) /\ keep v = true.
Proof. unfold Dict.items, Dict.filter_values. now rewrite filter_In. Qed.

End DictFacts.

Lemma get_map_values {V W : Type} (f : V -> W) (k : string) (d : Dict.t V) :
  Dict.get k (Dict.map_values f d) = option_map f (Dict.get k d).
Proof.
  unfold Dict.map_values.
  induction d as [|[k' v'] d IH]; cbn [map Dict.get fst snd]; [reflexivity|].
  destruct (String.eqb k k'); [reflexivity|exact IH].
Qed.

Lemma keys_map_values {V W : Type} (f : V -> W) (d : Dict.t V) :
  Dict.keys (Dict.map_values f d) = Dict.keys d.
Proof.
  unfold Dict.keys, Dict.map_values. rewrite map_map. reflexivity.
Qed.

(** ** Facts about sums and the stable descending sort *)

Lemma sum_from (l : list Z) (a : Z) : fold_left Z.add l a = a + Py.sum l.
Proof.
  unfold Py.sum. revert a.
  induction l as [|x l IH]; intros a; cbn [fold_left]; [lia|].
  rewrite (IH (a + x)), (IH (0 + x)). lia.
Qed.

Lemma sum_cons (x : Z) (l : list Z) : Py.sum (x :: l) = x + Py.sum l.
Proof. unfold Py.sum at 1. cbn [fold_left]. rewrite sum_from. lia. Qed.


Lemma sum_Permutation (l1 l2 : list Z) :
  Permutation l1 l2 -> Py.sum l1 = Py.sum l2.
Proof.
  induction 1; rewrite ?sum_cons in *; lia.
Qed.

Section SortFacts.
Context {A : Type} (key : A -> Z).

Lemma insert_desc_Permutation (x : A) (l : list A) :
  Permutation (Py.insert_desc key x l) (x :: l).
Proof.
  induction l as [|y l IH]; cbn [Py.insert_desc]; [reflexivity|].
  destruct (key x <? key y); [|reflexivity].
  rewrite IH. apply perm_swap.
Qed.

Lemma sort_desc_Permutation (l : list A) : Permutation (Py.sort_desc key l) l.
Proof.
  induction l as [|x l IH]; cbn [Py.sort_desc]; [reflexivity|].
  rewrite insert_desc_Permutation. now apply perm_skip.
Qed.

Lemma insert_desc_descending (x : A) (l : list A) :
  Py.descending key l -> Py.descending key (Py.insert_desc key x l).
Proof.
  unfold Py.descending.
  induction l as [|y l IH]; cbn [Py.insert_desc]; intros Hs.
  - constructor; constructor.
  - inversion Hs as [|? ? Hs' Hall]; subst.
    destruct (key x <? key y) eqn:E.
    + apply Z.ltb_lt in E. constructor; [now apply IH|].
      eapply Permutation_Forall.
      * symmetry. apply insert_desc_Permutation.
      * constructor; [lia | exact Hall].
    + apply Z.ltb_ge in E. constructor; [exact Hs|].
      constructor; [exact E|].
      eapply Forall_impl; [|exact Hall]. cbv beta. intros; lia.
Qed.

Lemma sort_desc_descending (l : list A) : Py.descending key (Py.sort_desc key l).
Proof.
  induction l as [|x l IH]; cbn [Py.sort_desc].
  - constructor.
  - now apply insert_desc_descending.
Qed.

(** Stability: the elements of any one key keep their relative order. *)
Lemma insert_desc_stable (t : Z) (x : A) (l : list A) :
  filter (fun y => key y =? t) (Py.insert_desc key x l)
  = filter (fun y => key y =? t) (x :: l).
Proof.
  induction l as [|y l IH]; cbn [Py.insert_desc]; [reflexivity|].
  destruct (key x <? key y) eqn:E; [|reflexivity].
  apply Z.ltb_lt in E.
  cbn [filter] in *. rewrite IH.
  destruct (key x =? t) eqn:Ex; destruct (key y =? t) eqn:Ey; try reflexivity.
  apply Z.eqb_eq in Ex, Ey. lia.
Qed.

Lemma sort_desc_stable (t : Z) (l : list A) :
  filter (fun y => key y =? t) (Py.sort_desc key l)
  = filter (fun y => key y =? t) l.
Proof.
  induction l as [|x l IH]; cbn [Py.sort_desc]; [reflexivity|].
  rewrite insert_desc_stable. cbn [filter]. now rewrite IH.
Qed.

End SortFacts.

(** ** Facts about the aggregation *)

Section AggregatorFacts.
Import ChurnAggregator.

Lemma get_add_change (acc : Dict.t Metrics.t) (c : change) (ns : string) :
  Dict.get ns (add_change acc c) =
    if String.eqb (namespace_of c) ns
    then Some (bump (entry_or_init (Dict.get ns acc)) c)
    else Dict.get ns acc.
Proof.
  destruct c as [[[n a] d] fp].
  unfold add_change, bump, namespace_of, additions_of, deletions_of, filepath_of.
  cbn [fst snd]. unfold Dict.mem.
  destruct (String.eqb n ns) eqn:E.
  - apply String.eqb_eq in E. subst n.
    rewrite get_adjust_eq.
    destruct (Dict.get ns acc) as [m|] eqn:G; cbn [negb].
    + rewrite G. reflexivity.
    + rewrite get_set_eq. reflexivity.
  - apply String.eqb_neq in E.
    rewrite get_adjust_ne by exact E.
    destruct (Dict.get n acc); cbn [negb]; [reflexivity|].
    now rewrite get_set_ne.
Qed.

Lemma keys_add_change (acc : Dict.t Metrics.t) (c : change) :
  NoDup (Dict.keys acc) -> NoDup (Dict.keys (add_change acc c)).
Proof.
  destruct c as [[[n a] d] fp]. unfold add_change.
  rewrite keys_adjust. unfold Dict.mem.
  destruct (Dict.get n acc) eqn:G; cbn [negb]; [easy|].
  intros Hnd. rewrite keys_set_fresh by exact G.
  apply NoDup_app; repeat split; auto.
  - constructor; [easy | constructor].
  - intros k Hk [<-|[]]. now apply get_None_keys in G.
Qed.

Lemma keys_fold_add_change (changes : list change) (acc : Dict.t Metrics.t) :
  NoDup (Dict.keys acc) -> NoDup (Dict.keys (fold_left add_change changes acc)).
Proof.
  revert acc. induction changes as [|c changes IH]; intros acc H; cbn [fold_left].
  - exact H.
  - apply IH. now apply keys_add_change.
Qed.

Lemma get_fold_add_change (changes : list change) (ns : string) :
  forall acc : Dict.t Metrics.t,
    Dict.get ns (fold_left add_change changes acc) =
      match records_of ns changes with
      | [] => Dict.get ns acc
      | rs => Some (fold_left bump rs (entry_or_init (Dict.get ns acc)))
      end.
Proof.
  induction changes as [|c changes IH]; intros acc; cbn [fold_left].
  - reflexivity.
  - rewrite IH, get_add_change. unfold records_of. cbn [filter].
    fold (records_of ns changes).
    destruct (String.eqb (namespace_of c) ns).
    + cbn [entry_or_init fold_left].
      destruct (records_of ns changes); reflexivity.
    + reflexivity.
Qed.

Lemma fold_bump (rs : list change) :
  forall m : Metrics.t,
    let m' := fold_left bump rs m in
    Metrics.additions m' = Metrics.additions m + Py.sum (map additions_of rs)
    /\ Metrics.deletions m' = Metrics.deletions m + Py.sum (map deletions_of rs)
    /\ Metrics.total m' =
         Metrics.total m + Py.sum (map FileDetail.total (map detail_of rs))
    /\ Metrics.file_count m' = Metrics.file_count m + Z.of_nat (List.length rs)
    /\ Metrics.files m' = Metrics.files m ++ map detail_of rs
    /\ Metrics.pattern m' = Metrics.pattern m.
Proof.
  induction rs as [|c rs IH]; intros m; cbn [fold_left map List.length].
  - cbv zeta. rewrite app_nil_r. unfold Py.sum; cbn [fold_left].
    repeat split; lia.
  - specialize (IH (bump m c)). cbv zeta in IH |- *.
    destruct IH as (Ha & Hd & Ht & Hc & Hf & Hp).
    rewrite Ha, Hd, Ht, Hc, Hf, Hp, !sum_cons.
    unfold bump, accumulate, detail_of.
    cbn [Metrics.additions Metrics.deletions Metrics.total Metrics.file_count
         Metrics.files Metrics.pattern FileDetail.total].
    rewrite <- app_assoc. cbn [app].
    repeat split; lia.
Qed.

(** Every entry of the aggregate is the sorted, classified fold of the
    input tuples of its namespace. *)
Lemma aggregate_entry (changes : list change) (ns : string) (N : Metrics.t) :
  In (ns, N) (Dict.items (aggregate_with_details changes)) ->
  records_of ns changes <> []
  /\ N = sort_and_detect (fold_left bump (records_of ns changes) init).
Proof.
  unfold aggregate_with_details. intros Hin.
  apply In_get in Hin.
  - rewrite get_map_values, get_fold_add_change in Hin.
    cbn [Dict.get Dict.empty entry_or_init] in Hin.
    destruct (records_of ns changes) as [|r rs] eqn:E; [discriminate|].
    split; [discriminate|].
    cbn [option_map] in Hin. now injection Hin as <-.
  - rewrite keys_map_values. apply keys_fold_add_change. constructor.
Qed.

End AggregatorFacts.

(** C3.  Every namespace aggregate [N] that [aggregate_with_details]
    returns has [N.total = N.additions + N.deletions], which is also the sum
    of the totals of [N]'s files; [N.additions] and [N.deletions] are the
    sums of the additions and deletions of the input tuples of that
    namespace, and [N.file_count] is their number.  A single record
    (45, 23) for a namespace yields additions 45, deletions 23, total 68 and
    file count 1. *)
Theorem aggregate_with_details_totals :
  (forall (changes : list ChurnAggregator.change) (ns : string) (N : Metrics.t),
     In (ns, N) (Dict.items (ChurnAggregator.aggregate_with_details changes)) ->
     Metrics.total N = Metrics.additions N + Metrics.deletions N
     /\ Metrics.total N = Py.sum (map FileDetail.total (Metrics.files N))
     /\ Metrics.additions N =
          Py.sum (map ChurnAggregator.additions_of
                    (ChurnAggregator.records_of ns changes))
     /\ Metrics.deletions N =
          Py.sum (map ChurnAggregator.deletions_of
                    (ChurnAggregator.records_of ns changes))
     /\ Metrics.file_count N =
          Z.of_nat (List.length (ChurnAggregator.records_of ns changes)))
  /\ (forall X filepath : string,
        exists N : Metrics.t,
          ChurnAggregator.aggregate_with_details [(X, 45, 23, filepath)] = [(X, N)]
          /\ Metrics.additions N = 45 /\ Metrics.deletions N = 23
          /\ Metrics.total N = 68 /\ Metrics.file_count N = 1).
Proof.
  split.
  - intros changes ns N Hin.
    apply aggregate_entry in Hin. destruct Hin as [_ ->].
    pose proof (fold_bump (ChurnAggregator.records_of ns changes)
                  ChurnAggregator.init) as H.
    cbv zeta in H. destruct H as (Ha & Hd & Ht & Hc & Hf & _).
    unfold ChurnAggregator.sort_and_detect.
    cbn [Metrics.additions Metrics.deletions Metrics.total Metrics.file_count
         Metrics.files].
    rewrite (sum_Permutation _ _
               (Permutation_map FileDetail.total
                  (sort_desc_Permutation FileDetail.total _))).
    rewrite Ha, Hd, Ht, Hc, Hf. cbn [ChurnAggregator.init Metrics.additions
      Metrics.deletions Metrics.total Metrics.file_count Metrics.files app].
    repeat split; try lia.
    rewrite map_map. unfold ChurnAggregator.detail_of. cbn [FileDetail.total].
    clear. induction (ChurnAggregator.records_of ns changes) as [|c rs IH];
      cbn [map]; [reflexivity|].
    rewrite !sum_cons. lia.
  - intros X filepath.
    unfold ChurnAggregator.aggregate_with_details, ChurnAggregator.add_change.
    cbn [fold_left Dict.empty Dict.mem Dict.get negb Dict.set Dict.adjust].
    rewrite String.eqb_refl.
    eexists. split; [reflexivity|].
    cbn. repeat split.
Qed.

(** The invariant on the aggregate of two records of one namespace. *)
Lemma aggregate_with_details_totals_witness :
  let N := Metrics.mk 110 40 150 2
             [FileDetail.mk "a.cs" 80 20 100; FileDetail.mk "b.cs" 30 20 50]
             PatternDetector.Growth in
  Metrics.total N = Metrics.additions N + Metrics.deletions N
  /\ Metrics.total N = Py.sum (map FileDetail.total (Metrics.files N)).
Proof.
  intros N.
  pose proof (proj1 aggregate_with_details_totals
                [("S", 30, 20, "b.cs"); ("S", 80, 20, "a.cs")] "S" N
                (or_introl eq_refl)) as (H1 & H2 & _).
  split; assumption.
Defined.

(** C8.  The threshold filters are inclusive: a namespace is retained
    exactly when its total of changed lines is at least the threshold, in
    [filter_by_threshold] and in the filter [analyze] applies in enhanced
    mode alike; a total equal to the threshold is retained. *)
Theorem threshold_filter_inclusive :
  (forall (aggregated : Dict.t LegacyMetrics.t) (min_threshold : Z)
          (ns : string) (m : LegacyMetrics.t),
     In (ns, m) (Dict.items (ChurnAggregator.filter_by_threshold aggregated min_threshold))
     <-> In (ns, m) (Dict.items aggregated)
         /\ min_threshold <= LegacyMetrics.lines_changed m)
  /\ (forall (aggregated : Dict.t Metrics.t) (min_threshold : Z)
             (ns : string) (m : Metrics.t),
        In (ns, m) (Dict.items (ChurnAggregator.filter_total aggregated min_threshold))
        <-> In (ns, m) (Dict.items aggregated)
            /\ min_threshold <= Metrics.total m)
  /\ (forall (aggregated : Dict.t LegacyMetrics.t) (ns : string) (m : LegacyMetrics.t),
        In (ns, m) (Dict.items aggregated) ->
        In (ns, m) (Dict.items (ChurnAggregator.filter_by_threshold aggregated
                                  (LegacyMetrics.lines_changed m))))
  /\ (forall (aggregated : Dict.t Metrics.t) (ns : string) (m : Metrics.t),
        In (ns, m) (Dict.items aggregated) ->
        In (ns, m) (Dict.items (ChurnAggregator.filter_total aggregated
                                  (Metrics.total m)))).
Proof.
  assert (L : forall aggregated min_threshold ns m,
             In (ns, m) (Dict.items (ChurnAggregator.filter_by_threshold aggregated min_threshold))
             <-> In (ns, m) (Dict.items aggregated)
                 /\ min_threshold <= LegacyMetrics.lines_changed m).
  { intros. unfold ChurnAggregator.filter_by_threshold.
    rewrite In_filter_values, Z.geb_le. reflexivity. }
  assert (E : forall aggregated min_threshold ns m,
             In (ns, m) (Dict.items (ChurnAggregator.filter_total aggregated min_threshold))
             <-> In (ns, m) (Dict.items aggregated)
                 /\ min_threshold <= Metrics.total m).
  { intros. unfold ChurnAggregator.filter_total.
    rewrite In_filter_values, Z.geb_le. reflexivity. }
  split; [exact L|]. split; [exact E|]. split.
  - intros aggregated ns m H. apply L. split; [exact H | lia].
  - intros aggregated ns m H. apply E. split; [exact H | lia].
Qed.

(** The filter of the unit test: thresholds 150, 50 and 100 against the
    minimum 100. *)
Lemma threshold_filter_inclusive_witness :
  let at_threshold := LegacyMetrics.mk 100 1 [] in
  let aggregated :=
    [("Above.Threshold", LegacyMetrics.mk 150 2 []);
     ("Below.Threshold", LegacyMetrics.mk 50 1 []);
     ("At.Threshold", at_threshold)] in
  In ("At.Threshold", at_threshold)
    (Dict.items (ChurnAggregator.filter_by_threshold aggregated 100)).
Proof.
  intros at_threshold aggregated.
  apply (proj1 (proj2 (proj2 threshold_filter_inclusive))
           aggregated "At.Threshold" at_threshold).
  right; right; left; reflexivity.
Defined.

(** C2 (as the code has it).  [parse_numstat_line] returns a record
    [(added, deleted, path)] exactly when the line, stripped of surrounding
    whitespace and split on tabs, has three fields, neither count field is
    the single character [-], and [int] accepts both count fields; in every
    other case it returns nothing.  [int] accepts signed literals, so a
    count is non-negative only when its field carries no minus sign.  The
    line of a text change parses to (45, 23, path) and the line of a binary
    change to nothing. *)
Theorem parse_numstat_line_contract :
  (forall (line : string) (a d : Z) (p : string),
     GitLogParser.parse_numstat_line line = Some (a, d, p) <->
     exists fa fd : string,
       Py.split Py.tab (Py.strip line) = [fa; fd; p]
       /\ fa <> "-" /\ fd <> "-"
       /\ Py.int fa = Some a /\ Py.int fd = Some d)
  /\ (forall (line : string) (a d : Z) (p : string),
        GitLogParser.parse_numstat_line line = Some (a, d, p) ->
        exists fa fd : string,
          Py.split Py.tab (Py.strip line) = [fa; fd; p]
          /\ (Py.has_minus fa = false -> 0 <= a)
          /\ (Py.has_minus fd = false -> 0 <= d))
  /\ GitLogParser.parse_numstat_line GitLogParser.line_text
     = Some (45, 23, "app/services/UserService.cs")
  /\ GitLogParser.parse_numstat_line GitLogParser.line_binary = None.
Proof.
  split; [exact parse_numstat_line_fields|].
  split; [|split; vm_compute; reflexivity].
  intros line a d p H.
  apply parse_numstat_line_fields in H.
  destruct H as (fa & fd & Hs & _ & _ & Ia & Id).
  exists fa, fd. split; [exact Hs|].
  split; intros Hm.
  - destruct (Z.lt_ge_cases a 0) as [Hneg|]; [|assumption].
    rewrite (int_negative_has_minus fa a Ia Hneg) in Hm. discriminate.
  - destruct (Z.lt_ge_cases d 0) as [Hneg|]; [|assumption].
    rewrite (int_negative_has_minus fd d Id Hneg) in Hm. discriminate.
Qed.

(** The contract on the line of a text change: from its three fields to
    the record. *)
Lemma parse_numstat_line_contract_witness :
  GitLogParser.parse_numstat_line GitLogParser.line_text
  = Some (45, 23, "app/services/UserService.cs").
Proof.
  apply (proj1 parse_numstat_line_contract).
  exists "45", "23".
  split; [vm_compute; reflexivity|].
  split; [discriminate|].
  split; [discriminate|].
  split; vm_compute; reflexivity.
Defined.

(** C2 as stated fails: a line whose first count is written [-5] splits
    into three fields, none of them the binary marker, and is parsed to a
    record with a negative count. *)
Lemma parse_numstat_line_negative_count :
  Py.split Py.tab GitLogParser.line_signed = ["-5"; "3"; "a.cs"]
  /\ GitLogParser.parse_numstat_line GitLogParser.line_signed
     = Some (-5, 3, "a.cs")
  /\ ~ (0 <= -5).
Proof.
  split; [vm_compute; reflexivity|].
  split; [vm_compute; reflexivity|].
  lia.
Qed.

(** ** Facts about the severity indicator *)

Lemma count_if_length {A : Type} (cond : A -> bool) (data : list (string * A)) :
  ConsoleFormatter.count_if cond data
  = Z.of_nat (List.length (filter (fun x => cond (snd x)) data)).
Proof.
  unfold ConsoleFormatter.count_if.
  induction (filter (fun x => cond (snd x)) data) as [|x l IH];
    cbn [map List.length]; [reflexivity|].
  rewrite sum_cons, IH. lia.
Qed.

(** C9 (as the code has it).  The severity indicator has three tiers: the
    fire glyph exactly for totals above 1000, the warning glyph exactly for
    totals above 500 and at most 1000, and the check mark exactly for
    totals of at most 500.  The summary line counts as hotspots the
    namespaces with total above 1000 and as warnings those with total above
    500 and at most 1000: the rows that show the fire and the warning
    glyph. *)
Theorem severity_tiers :
  (forall total : Z,
     (OutputFormatter.get_indicator total = Glyph.fire <-> 1000 < total)
     /\ (OutputFormatter.get_indicator total = Glyph.warning
         <-> 500 < total /\ total <= 1000)
     /\ (OutputFormatter.get_indicator total = Glyph.check <-> total <= 500))
  /\ (forall data : list (string * Metrics.t),
        ConsoleFormatter.hotspots (ConsoleFormatter.enhanced_summary data)
        = Z.of_nat (List.length
                      (filter (fun x => Metrics.total (snd x) >? 1000) data))
        /\ ConsoleFormatter.warnings (ConsoleFormatter.enhanced_summary data)
           = Z.of_nat (List.length
                         (filter (fun x => (500 <? Metrics.total (snd x))
                                           && (Metrics.total (snd x) <=? 1000))
                            data)))
  /\ (forall m : Metrics.t,
        ((Metrics.total m >? 1000) = true
         <-> ConsoleFormatter.severity_indicator m = Glyph.fire)
        /\ (((500 <? Metrics.total m) && (Metrics.total m <=? 1000)) = true
            <-> ConsoleFormatter.severity_indicator m = Glyph.warning)).
Proof.
  assert (T : forall total : Z,
             (OutputFormatter.get_indicator total = Glyph.fire <-> 1000 < total)
             /\ (OutputFormatter.get_indicator total = Glyph.warning
                 <-> 500 < total /\ total <= 1000)
             /\ (OutputFormatter.get_indicator total = Glyph.check <-> total <= 500)).
  { intros total. unfold OutputFormatter.get_indicator,
      OutputFormatter.HOTSPOT_THRESHOLD, OutputFormatter.WARNING_THRESHOLD.
    destruct (total >? 1000) eqn:H1;
      [apply Z.gtb_lt in H1 | rewrite Z.gtb_ltb in H1; apply Z.ltb_ge in H1].
    - repeat split; intros; try lia; try discriminate.
    - destruct (total >? 500) eqn:H2;
        [apply Z.gtb_lt in H2 | rewrite Z.gtb_ltb in H2; apply Z.ltb_ge in H2];
        repeat split; intros; try lia; try discriminate. }
  split; [exact T|]. split.
  - intros data. unfold ConsoleFormatter.enhanced_summary.
    cbn [ConsoleFormatter.hotspots ConsoleFormatter.warnings].
    rewrite !count_if_length. split; reflexivity.
  - intros m. unfold ConsoleFormatter.severity_indicator.
    destruct (T (Metrics.total m)) as (Hf & Hw & _).
    rewrite Hf, Hw, Z.gtb_lt, andb_true_iff, Z.ltb_lt, Z.leb_le. tauto.
Qed.

(** The three tiers at the totals of the unit test. *)
Lemma severity_tiers_witness :
  OutputFormatter.get_indicator 1500 = Glyph.fire
  /\ OutputFormatter.get_indicator 600 = Glyph.warning
  /\ OutputFormatter.get_indicator 150 = Glyph.check.
Proof.
  destruct (proj1 severity_tiers 1500) as (H1 & _ & _).
  destruct (proj1 severity_tiers 600) as (_ & H2 & _).
  destruct (proj1 severity_tiers 150) as (_ & _ & H3).
  split; [apply H1; lia|].
  split; [apply H2; lia | apply H3; lia].
Defined.

(** C9 as stated fails: below the warning tier a glyph is shown, the
    check mark. *)
Lemma severity_low_tier_shows_check :
  OutputFormatter.get_indicator 150 = Glyph.check
  /\ OutputFormatter.get_indicator 150 <> Glyph.none.
Proof.
  split; [reflexivity | discriminate].
Qed.

(** ** Facts about the ownership calculation *)

Section MaxFacts.
Context {A : Type} (key : A -> Z).




End MaxFacts.

Section DictSums.



End DictSums.

Section OwnershipFacts.
Import AuthorshipAnalyzer.














Lemma In_set {V : Type} (k k' : string) (v v' : V) (d : Dict.t V) :
  In (k', v') (Dict.items (Dict.set k v d)) ->
  (k', v') = (k, v) \/ In (k', v') (Dict.items d).
Proof.
  unfold Dict.items.
  induction d as [|[k0 v0] d IH]; cbn [Dict.set In].
  - intros [H|[]]. left. now symmetry.
  - destruct (String.eqb k k0); cbn [In].
    + intros [H|H]; [left; now symmetry | right; now right].
    + intros [H|H]; [right; now left|].
      destruct (IH H); [now left | right; now right].
Qed.


Lemma build_In (items : list (string * Dict.t Z)) :
  forall acc res,
    build items acc = Some res ->
    forall ns o, In (ns, o) (Dict.items res) ->
      In (ns, o) (Dict.items acc)
      \/ exists authors, In (ns, authors) items /\ entry authors = Some o.
Proof.
  induction items as [|[ns0 authors] items IH]; intros acc res; cbn [build].
  - intros H. injection H as <-. auto.
  - destruct (entry authors) as [e|] eqn:E; [|discriminate].
    intros H ns o Hin.
    destruct (IH _ _ H ns o Hin) as [Hacc|(au & Hau & He)].
    + apply In_set in Hacc. destruct Hacc as [Heq|Hacc]; [|now left].
      injection Heq as -> ->. right. exists authors. split; [now left | exact E].
    + right. exists au. split; [now right | exact He].
Qed.


End OwnershipFacts.


(** ** Facts about the regular expression search *)

Section RegexFacts.
Import Regex.
Variable r : regex.

Lemma match_from_0 (prev : option ascii) (pos : nat) (rest : string) :
  match_from r prev pos rest 0 = match_here r prev pos rest 0 0.
Proof. unfold match_from. cbn [at_offset]. now rewrite Nat.add_0_r. Qed.

Lemma match_from_S (prev : option ascii) (pos : nat) (c : ascii)
  (rest : string) (k : nat) :
  match_from r prev pos (String c rest) (S k)
  = match_from r (Some c) (S pos) rest k.
Proof. unfold match_from. cbn [at_offset]. now rewrite Nat.add_succ_r. Qed.


(** [search] reports the leftmost offset at which the pattern
    matches. *)
Lemma search_from_Some (rest : string) :
  forall prev pos f,
    search_from r prev pos rest = Some f ->
    exists k : nat,
      start f = (pos + k)%nat
      /\ match_from r prev pos rest k = Some (matched f)
      /\ forall j : nat, (j < k)%nat -> match_from r prev pos rest j = None.
Proof.
  induction rest as [|c rest IH]; intros prev pos f; cbn [search_from].
  - destruct (match_here r prev pos EmptyString 0 0) as [m|] eqn:E; [|discriminate].
    intros H. injection H as <-. exists 0%nat. cbn [start matched].
    rewrite match_from_0. repeat split; [lia | exact E | lia].
  - destruct (match_here r prev pos (String c rest) 0 0) as [m|] eqn:E.
    + intros H. injection H as <-. exists 0%nat. cbn [start matched].
      rewrite match_from_0. repeat split; [lia | exact E | lia].
    + intros H. destruct (IH _ _ _ H) as (k & Hs & Hm & Hmin).
      exists (S k). rewrite match_from_S.
      repeat split; [lia | exact Hm |].
      intros [|j] Hj; [now rewrite match_from_0|].
      rewrite match_from_S. apply Hmin. lia.
Qed.




End RegexFacts.

(** ** Facts about namespace extraction *)

Section NamespaceParserFacts.
Import NamespaceParser.

(** Empty and whitespace-only text has no namespace, whatever the
    file. *)
Lemma extract_namespace_blank (content filepath : string) :
  Py.strip content = "" -> extract_namespace content filepath = global.
Proof. unfold extract_namespace. now intros ->. Qed.

Lemma lstrip_all_space (content : string) :
  Forall (fun c => Py.isspace c = true) (list_ascii_of_string content) ->
  Py.lstrip_by Py.isspace content = "".
Proof.
  induction content as [|c content IH]; cbn [list_ascii_of_string Py.lstrip_by];
    [reflexivity|].
  intros H. inversion H as [|? ? Hc Hrest]; subst. rewrite Hc. now apply IH.
Qed.

Lemma extract_namespace_whitespace (content filepath : string) :
  Forall (fun c => Py.isspace c = true) (list_ascii_of_string content) ->
  extract_namespace content filepath = global.
Proof.
  intros H. apply extract_namespace_blank.
  unfold Py.strip. now rewrite lstrip_all_space.
Qed.

(** A file that is neither C# nor VB.NET has no namespace, whatever it
    holds. *)
Lemma extract_namespace_other_extension (content filepath : string) :
  Py.endswith filepath ".cs" = false ->
  Py.endswith filepath ".vb" = false ->
  extract_namespace content filepath = global.
Proof.
  intros Hcs Hvb. unfold extract_namespace. rewrite Hcs, Hvb.
  now destruct (String.eqb (Py.strip content) "").
Qed.

(** The texts of the unit tests on comments. *)
Lemma extract_namespace_commented :
  extract_namespace only_commented_example "file.cs" = global
  /\ extract_namespace commented_example "file.cs" = "Real.Namespace"
  /\ extract_namespace "" "file.cs" = global.
Proof. repeat split; vm_compute; reflexivity. Qed.

End NamespaceParserFacts.




(** C5, where the code departs from it.  The text is a block comment
    followed by a class: the only declaration is inside the comment.
    Removing line comments first deletes the closing delimiter of the block
    comment, the block comment is then not removed, and the commented-out
    declaration is returned; the text after the comment has no namespace.
    The block comment alone, a file that holds only a commented-out
    declaration, yields the commented-out name as well. *)
Theorem commented_declaration_matched :
  NamespaceParser.block_commented_example
  = ("/*" ++ NamespaceParser.block_comment_body ++ "*/"
          ++ NamespaceParser.block_comment_tail)%string
  /\ Py.contains NamespaceParser.block_comment_body "*/" = false
  /\ Regex.remove_all NamespaceParser.LINE_COMMENT
       NamespaceParser.block_commented_example
     = NamespaceParser.unlines ["/*"; "namespace Commented.Out {"; ""; "class C {}"; ""]
  /\ NamespaceParser._remove_comments NamespaceParser.block_commented_example "file.cs"
     = NamespaceParser.unlines ["/*"; "namespace Commented.Out {"; ""; "class C {}"; ""]
  /\ NamespaceParser.extract_namespace NamespaceParser.block_commented_example "file.cs"
     = "Commented.Out"
  /\ NamespaceParser.extract_namespace NamespaceParser.block_comment_tail "file.cs"
     = NamespaceParser.global
  /\ NamespaceParser.only_block_commented_example
     = ("/*" ++ NamespaceParser.block_comment_body ++ "*/")%string
  /\ NamespaceParser.extract_namespace NamespaceParser.only_block_commented_example
       "file.cs"
     = "Commented.Out".
Proof.
  repeat split; vm_compute; reflexivity.
Qed.

(** ** Facts about [analyze] and [main] *)

Lemma is_valid_period_iff (period : string) :
  GitCommandBuilder.is_valid_period period = true
  <-> period = "1 month" \/ period = "3 months" \/ period = "1 year".
Proof.
  unfold GitCommandBuilder.is_valid_period, GitCommandBuilder.VALID_PERIODS.
  cbn [existsb]. rewrite !orb_true_iff, !String.eqb_eq. intuition discriminate.
Qed.

(** C10.  The valid periods are the three literal choices.  For any other
    period [analyze] raises [ValueError] and leaves the trace of events as
    it found it: no history command has been run, no file read.  [main]
    turns every exception of [analyze] into exit code 1 and a message on the
    error stream, and a result into exit code 0 and the result on the
    output stream. *)
Theorem invalid_period_rejected_first :
  (forall period : string,
     GitCommandBuilder.is_valid_period period = true
     <-> period = "1 month" \/ period = "3 months" \/ period = "1 year")
  /\ (forall (w : Analyzer.World) (co : Analyzer.Collaborators)
             (period : string) (min_threshold : Z) (output_format : string)
             (show_details enhanced : bool) (tr : list Analyzer.event),
        period <> "1 month" -> period <> "3 months" -> period <> "1 year" ->
        Analyzer.analyze w co period min_threshold output_format show_details
          enhanced tr
        = (inl (Analyzer.ValueError "Invalid period. Use: 1 month, 3 months, 1 year"),
           tr))
  /\ (forall (w : Analyzer.World) (co : Analyzer.Collaborators)
             (a : Analyzer.args) (tr : list Analyzer.event),
        match
          Analyzer.analyze w co (Analyzer.arg_period a) (Analyzer.arg_threshold a)
            (Analyzer.arg_format a)
            (if Analyzer.arg_enhanced a then true else Analyzer.arg_detailed a)
            (Analyzer.arg_enhanced a) tr
        with
        | (inl e, tr') =>
            Analyzer.main w co a tr
            = (1, tr' ++ [Analyzer.PrintErr
                            (Analyzer.text_of ("Error: " ++ Analyzer.message e)%string)])
        | (inr output, tr') =>
            Analyzer.main w co a tr = (0, tr' ++ [Analyzer.Print output])
        end)
  /\ (forall (w : Analyzer.World) (co : Analyzer.Collaborators)
             (a : Analyzer.args) (tr : list Analyzer.event),
        Analyzer.arg_period a <> "1 month" ->
        Analyzer.arg_period a <> "3 months" ->
        Analyzer.arg_period a <> "1 year" ->
        Analyzer.main w co a tr
        = (1, tr ++ [Analyzer.PrintErr
                       (Analyzer.text_of
                          "Error: Invalid period. Use: 1 month, 3 months, 1 year")])).
Proof.
  assert (R : forall w co period min_threshold output_format show_details enhanced tr,
             period <> "1 month" -> period <> "3 months" -> period <> "1 year" ->
             Analyzer.analyze w co period min_threshold output_format show_details
               enhanced tr
             = (inl (Analyzer.ValueError "Invalid period. Use: 1 month, 3 months, 1 year"),
                tr)).
  { intros w co period mt fmt sd en tr H1 H2 H3. unfold Analyzer.analyze.
    destruct (GitCommandBuilder.is_valid_period period) eqn:E.
    - apply is_valid_period_iff in E. tauto.
    - reflexivity. }
  split; [exact is_valid_period_iff|]. split; [exact R|]. split.
  - intros w co a tr. unfold Analyzer.main.
    destruct (Analyzer.analyze w co (Analyzer.arg_period a) (Analyzer.arg_threshold a)
                (Analyzer.arg_format a)
                (if Analyzer.arg_enhanced a then true else Analyzer.arg_detailed a)
                (Analyzer.arg_enhanced a) tr) as [[e|output] tr']; reflexivity.
  - intros w co a tr H1 H2 H3. unfold Analyzer.main.
    rewrite (R w co _ _ _ _ _ tr H1 H2 H3). reflexivity.
Qed.

(** The period of the unit test that is not a valid one, in a quiet
    environment: the error is raised on an empty trace, and [main] exits
    with code 1 after one line on the error stream. *)
Lemma invalid_period_rejected_first_witness :
  Analyzer.analyze Analyzer.quiet_world Analyzer.quiet_collaborators
    "2 weeks" 100 "console" false false []
  = (inl (Analyzer.ValueError "Invalid period. Use: 1 month, 3 months, 1 year"), [])
  /\ Analyzer.main Analyzer.quiet_world Analyzer.quiet_collaborators
       (Analyzer.mk_args "2 weeks" 100 "console" false false) []
     = (1, [Analyzer.PrintErr
              (Analyzer.text_of
                 "Error: Invalid period. Use: 1 month, 3 months, 1 year")]).
Proof.
  split.
  - apply (proj1 (proj2 invalid_period_rejected_first)); discriminate.
  - apply (proj2 (proj2 (proj2 invalid_period_rejected_first))
             Analyzer.quiet_world Analyzer.quiet_collaborators
             (Analyzer.mk_args "2 weeks" 100 "console" false false) []);
      discriminate.
Defined.



(* ===================================================================== *)
(** * Further properties of the code                                      *)
(* ===================================================================== *)

(** ** Pattern classification *)






(** What a churn classification says about the counts. *)
Lemma churn_counts (a d : Z) :
  PatternDetector.detect_pattern a d = PatternDetector.Churn ->
  600 < a /\ 600 < d
  /\ OutputFormatter.get_indicator (a + d) = Glyph.fire
  /\ OutputFormatter.get_combined_indicator (a + d) PatternDetector.Churn
     = Glyph.fire ++ Glyph.high_voltage.
Proof.
  unfold PatternDetector.detect_pattern.
  destruct (a + d =? 0); [discriminate|].
  destruct (Qle_bool 0.7 (inject_Z a / inject_Z (a + d))); [discriminate|].
  destruct (Qle_bool 0.7 (inject_Z d / inject_Z (a + d))); [discriminate|].
  destruct (a >? 600) eqn:H1; [|discriminate].
  destruct (d >? 600) eqn:H2; [|discriminate].
  intros _. apply Z.gtb_lt in H1, H2.
  assert (Hf : OutputFormatter.get_indicator (a + d) = Glyph.fire).
  { unfold OutputFormatter.get_indicator, OutputFormatter.HOTSPOT_THRESHOLD.
    destruct (a + d >? 1000) eqn:E; [reflexivity|].
    rewrite Z.gtb_ltb in E. apply Z.ltb_ge in E. lia. }
  unfold OutputFormatter.get_combined_indicator. rewrite Hf.
  repeat split; assumption || reflexivity.
Qed.

(** X3.  A change classified as churn is always a hotspot: both counts
    exceed 600, so the total exceeds 1200 and the severity glyph is the
    fire. *)
Theorem churn_is_hotspot (a d : Z) :
  PatternDetector.detect_pattern a d = PatternDetector.Churn ->
  600 < a /\ 600 < d
  /\ OutputFormatter.get_indicator (a + d) = Glyph.fire
  /\ OutputFormatter.get_combined_indicator (a + d) PatternDetector.Churn
     = Glyph.fire ++ Glyph.high_voltage.
Proof. exact (churn_counts a d). Qed.

Lemma churn_is_hotspot_witness :
  OutputFormatter.get_indicator (1000 + 800) = Glyph.fire.
Proof.
  apply (churn_is_hotspot 1000 800). vm_compute. reflexivity.
Defined.

(** ** Aggregation *)

Section FoldFacts.
Context {V C : Type}.
Variable add : Dict.t V -> C -> Dict.t V.
Variable name : C -> string.

Lemma mem_existsb (k : string) (d : Dict.t V) :
  Dict.mem k d = existsb (String.eqb k) (Dict.keys d).
Proof.
  unfold Dict.mem, Dict.keys.
  induction d as [|[k' v] d IH]; cbn [Dict.get map fst existsb]; [reflexivity|].
  destruct (String.eqb k k'); [reflexivity | exact IH].
Qed.

Lemma first_seen_ext (names : list string) :
  forall s1 s2 : list string,
    (forall x, existsb (String.eqb x) s1 = existsb (String.eqb x) s2) ->
    ChurnAggregator.first_seen s1 names = ChurnAggregator.first_seen s2 names.
Proof.
  induction names as [|n names IH]; intros s1 s2 H;
    cbn [ChurnAggregator.first_seen]; [reflexivity|].
  rewrite (H n). destruct (existsb (String.eqb n) s2).
  - now apply IH.
  - f_equal. apply IH. intros x. cbn [existsb]. now rewrite H.
Qed.

Hypothesis keys_add :
  forall acc c,
    Dict.keys (add acc c) =
      if Dict.mem (name c) acc then Dict.keys acc
      else Dict.keys acc ++ [name c].

(** The keys after a fold: the keys before it, then the new names in
    the order of their first occurrence. *)
Lemma keys_fold (changes : list C) :
  forall acc,
    Dict.keys (fold_left add changes acc) =
      Dict.keys acc ++ ChurnAggregator.first_seen (Dict.keys acc) (map name changes).
Proof.
  induction changes as [|c changes IH]; intros acc;
    cbn [fold_left map ChurnAggregator.first_seen].
  - now rewrite app_nil_r.
  - rewrite IH, keys_add, mem_existsb.
    destruct (existsb (String.eqb (name c)) (Dict.keys acc)); [reflexivity|].
    rewrite <- app_assoc. cbn [app]. do 2 f_equal.
    apply first_seen_ext. intros x.
    rewrite existsb_app. cbn [existsb]. rewrite orb_false_r. apply orb_comm.
Qed.

End FoldFacts.

Lemma first_seen_In (names : list string) :
  forall (seen : list string) (n : string),
    In n (ChurnAggregator.first_seen seen names)
    <-> In n names /\ ~ In n seen.
Proof.
  induction names as [|x names IH]; intros seen n;
    cbn [ChurnAggregator.first_seen In]; [tauto|].
  destruct (existsb (String.eqb x) seen) eqn:E.
  - apply existsb_exists in E. destruct E as (y & Hy & Exy).
    apply String.eqb_eq in Exy. subst y.
    rewrite IH. split; [tauto|].
    intros [[->|H] Hn]; [contradiction | tauto].
  - assert (Hx : ~ In x seen).
    { intros H. assert (existsb (String.eqb x) seen = true)
        by (apply existsb_exists; exists x; split; [exact H | apply String.eqb_refl]).
      congruence. }
    cbn [In]. rewrite IH. cbn [In].
    destruct (string_dec x n) as [->|Hne]; [tauto|].
    split; [intros [H|H]; tauto | intros [[H|H] Hn]; [contradiction|]].
    right. split; [exact H|]. intros [H'|H']; [congruence | contradiction].
Qed.

Lemma first_seen_NoDup (names : list string) :
  forall seen : list string, NoDup (ChurnAggregator.first_seen seen names).
Proof.
  induction names as [|x names IH]; intros seen;
    cbn [ChurnAggregator.first_seen]; [constructor|].
  destruct (existsb (String.eqb x) seen); [apply IH|].
  constructor; [|apply IH].
  rewrite first_seen_In. cbn [In]. tauto.
Qed.

Section AggregatorKeys.
Import ChurnAggregator.

Lemma keys_add_change_eq (acc : Dict.t Metrics.t) (c : change) :
  Dict.keys (add_change acc c) =
    if Dict.mem (namespace_of c) acc then Dict.keys acc
    else Dict.keys acc ++ [namespace_of c].
Proof.
  destruct c as [[[n a] d] fp]. unfold add_change, namespace_of. cbn [fst].
  rewrite keys_adjust.
  destruct (Dict.mem n acc) eqn:E; cbn [negb]; [reflexivity|].
  apply keys_set_fresh. unfold Dict.mem in E.
  now destruct (Dict.get n acc).
Qed.

Lemma keys_legacy_add_eq (acc : Dict.t LegacyMetrics.t) (c : legacy_change) :
  Dict.keys (legacy_add acc c) =
    if Dict.mem (legacy_namespace_of c) acc then Dict.keys acc
    else Dict.keys acc ++ [legacy_namespace_of c].
Proof.
  destruct c as [[n l] fp]. unfold legacy_add, legacy_namespace_of. cbn [fst].
  rewrite keys_adjust.
  destruct (Dict.mem n acc) eqn:E; cbn [negb]; [reflexivity|].
  apply keys_set_fresh. unfold Dict.mem in E.
  now destruct (Dict.get n acc).
Qed.

Lemma keys_aggregate_with_details (changes : list change) :
  Dict.keys (aggregate_with_details changes)
  = first_seen [] (map namespace_of changes).
Proof.
  unfold aggregate_with_details.
  rewrite keys_map_values, (keys_fold add_change namespace_of keys_add_change_eq).
  reflexivity.
Qed.

Lemma keys_aggregate (changes : list legacy_change) :
  Dict.keys (aggregate changes)
  = first_seen [] (map legacy_namespace_of changes).
Proof.
  unfold aggregate.
  rewrite keys_map_values,
    (keys_fold legacy_add legacy_namespace_of keys_legacy_add_eq).
  reflexivity.
Qed.

(** The fields of an entry of the enhanced aggregate. *)
Lemma aggregate_entry_fields (changes : list change) (ns : string) (N : Metrics.t) :
  In (ns, N) (Dict.items (aggregate_with_details changes)) ->
  records_of ns changes <> []
  /\ Metrics.additions N = Py.sum (map additions_of (records_of ns changes))
  /\ Metrics.deletions N = Py.sum (map deletions_of (records_of ns changes))
  /\ Metrics.total N = Metrics.additions N + Metrics.deletions N
  /\ Metrics.file_count N = Z.of_nat (List.length (records_of ns changes))
  /\ Metrics.files N
     = Py.sort_desc FileDetail.total (map detail_of (records_of ns changes))
  /\ Metrics.pattern N
     = PatternDetector.detect_pattern (Metrics.additions N) (Metrics.deletions N).
Proof.
  intros Hin. apply aggregate_entry in Hin. destruct Hin as [Hne ->].
  pose proof (fold_bump (records_of ns changes) init) as H.
  cbv zeta in H. destruct H as (Ha & Hd & Ht & Hc & Hf & _).
  unfold sort_and_detect.
  cbn [Metrics.additions Metrics.deletions Metrics.total Metrics.file_count
       Metrics.files Metrics.pattern].
  rewrite Ha, Hd, Ht, Hc, Hf.
  cbn [init Metrics.additions Metrics.deletions Metrics.total
       Metrics.file_count Metrics.files app].
  repeat split; try assumption; try lia; try reflexivity.
  rewrite map_map. unfold detail_of. cbn [FileDetail.total].
  clear. induction (records_of ns changes) as [|c rs IH];
    cbn [map]; [reflexivity|].
  rewrite !sum_cons. lia.
Qed.

End AggregatorKeys.

(** X4.  The namespaces of the enhanced aggregate are the namespaces of
    the input, each once, in the order of their first occurrence; the
    pattern stored with a namespace is the classification of its final
    additions and deletions. *)
Theorem aggregate_with_details_namespaces :
  forall changes : list ChurnAggregator.change,
    Dict.keys (ChurnAggregator.aggregate_with_details changes)
    = ChurnAggregator.first_seen [] (map ChurnAggregator.namespace_of changes)
    /\ NoDup (Dict.keys (ChurnAggregator.aggregate_with_details changes))
    /\ (forall ns : string,
          In ns (Dict.keys (ChurnAggregator.aggregate_with_details changes))
          <-> In ns (map ChurnAggregator.namespace_of changes))
    /\ (forall (ns : string) (N : Metrics.t),
          In (ns, N) (Dict.items (ChurnAggregator.aggregate_with_details changes)) ->
          Metrics.pattern N
          = PatternDetector.detect_pattern (Metrics.additions N) (Metrics.deletions N)).
Proof.
  intros changes. rewrite keys_aggregate_with_details.
  split; [reflexivity|]. split; [apply first_seen_NoDup|]. split.
  - intros ns. rewrite first_seen_In. cbn [In]. tauto.
  - intros ns N H. now apply aggregate_entry_fields in H.
Qed.

Lemma aggregate_with_details_namespaces_witness :
  Metrics.pattern
    (Metrics.mk 110 40 150 2
       [FileDetail.mk "a.cs" 80 20 100; FileDetail.mk "b.cs" 30 20 50]
       PatternDetector.Growth)
  = PatternDetector.detect_pattern 110 40.
Proof.
  apply (proj2 (proj2 (proj2 (aggregate_with_details_namespaces
                  [("S", 30, 20, "b.cs"); ("S", 80, 20, "a.cs")]))) "S").
  left. reflexivity.
Defined.

(** X5.  In the enhanced aggregate a namespace classified as churn has a
    total above 1200 and is shown with the fire glyph. *)
Theorem aggregate_churn_is_hotspot :
  forall (changes : list ChurnAggregator.change) (ns : string) (N : Metrics.t),
    In (ns, N) (Dict.items (ChurnAggregator.aggregate_with_details changes)) ->
    Metrics.pattern N = PatternDetector.Churn ->
    1200 < Metrics.total N
    /\ ConsoleFormatter.severity_indicator N = Glyph.fire.
Proof.
  intros changes ns N Hin Hp.
  apply aggregate_entry_fields in Hin.
  destruct Hin as (_ & _ & _ & Ht & _ & _ & Hpat).
  rewrite Hpat in Hp. apply churn_counts in Hp.
  destruct Hp as (Ha & Hd & Hf & _).
  unfold ConsoleFormatter.severity_indicator. rewrite Ht.
  split; [lia | exact Hf].
Qed.

Lemma aggregate_churn_is_hotspot_witness :
  let N := Metrics.mk 1000 900 1900 1 [FileDetail.mk "a.cs" 1000 900 1900]
             PatternDetector.Churn in
  1200 < Metrics.total N /\ ConsoleFormatter.severity_indicator N = Glyph.fire.
Proof.
  intros N.
  apply (aggregate_churn_is_hotspot
           [("S", 1000, 900, "a.cs")] "S" N).
  - left. reflexivity.
  - reflexivity.
Defined.

Section GetFold.
Context {V C : Type}.
Variable add : Dict.t V -> C -> Dict.t V.
Variable name : C -> string.
Variable bump : V -> C -> V.
Variable init : V.

Hypothesis get_add :
  forall acc c ns,
    Dict.get ns (add acc c) =
      if String.eqb (name c) ns then Some (bump (Dict.value_or init (Dict.get ns acc)) c)
      else Dict.get ns acc.

Lemma get_fold (changes : list C) (ns : string) :
  forall acc,
    Dict.get ns (fold_left add changes acc) =
      match filter (fun c => String.eqb (name c) ns) changes with
      | [] => Dict.get ns acc
      | rs => Some (fold_left bump rs (Dict.value_or init (Dict.get ns acc)))
      end.
Proof.
  induction changes as [|c changes IH]; intros acc; cbn [fold_left filter].
  - reflexivity.
  - rewrite IH, get_add.
    destruct (String.eqb (name c) ns).
    + cbn [Dict.value_or fold_left].
      destruct (filter (fun c => String.eqb (name c) ns) changes); reflexivity.
    + reflexivity.
Qed.

End GetFold.

Section LegacyAggregatorFacts.
Import ChurnAggregator.

Lemma get_legacy_add (acc : Dict.t LegacyMetrics.t) (c : legacy_change) (ns : string) :
  Dict.get ns (legacy_add acc c) =
    if String.eqb (legacy_namespace_of c) ns
    then Some (legacy_bump (Dict.value_or legacy_init (Dict.get ns acc)) c)
    else Dict.get ns acc.
Proof.
  destruct c as [[n l] fp].
  unfold legacy_add, legacy_bump, legacy_namespace_of, legacy_lines_of,
    legacy_filepath_of, legacy_detail_of, Dict.value_or.
  cbn [fst snd]. unfold Dict.mem.
  destruct (String.eqb n ns) eqn:E.
  - apply String.eqb_eq in E. subst n.
    rewrite get_adjust_eq.
    destruct (Dict.get ns acc) as [m|] eqn:G; cbn [negb].
    + rewrite G. reflexivity.
    + rewrite get_set_eq. reflexivity.
  - apply String.eqb_neq in E.
    rewrite get_adjust_ne by exact E.
    destruct (Dict.get n acc); cbn [negb]; [reflexivity|].
    now rewrite get_set_ne.
Qed.

Lemma fold_legacy_bump (rs : list legacy_change) :
  forall m : LegacyMetrics.t,
    let m' := fold_left legacy_bump rs m in
    LegacyMetrics.lines_changed m'
    = LegacyMetrics.lines_changed m + Py.sum (map legacy_lines_of rs)
    /\ LegacyMetrics.file_count m'
       = LegacyMetrics.file_count m + Z.of_nat (List.length rs)
    /\ LegacyMetrics.files m' = LegacyMetrics.files m ++ map legacy_detail_of rs.
Proof.
  induction rs as [|c rs IH]; intros m; cbn [fold_left map List.length].
  - cbv zeta. rewrite app_nil_r. unfold Py.sum; cbn [fold_left].
    repeat split; lia.
  - specialize (IH (legacy_bump m c)). cbv zeta in IH |- *.
    destruct IH as (Hl & Hc & Hf).
    rewrite Hl, Hc, Hf, !sum_cons. unfold legacy_bump.
    cbn [LegacyMetrics.lines_changed LegacyMetrics.file_count LegacyMetrics.files].
    rewrite <- app_assoc. cbn [app].
    repeat split; lia.
Qed.

Lemma get_aggregate (changes : list legacy_change) (ns : string) :
  Dict.get ns (aggregate changes) =
    match legacy_records_of ns changes with
    | [] => None
    | rs =>
        Some (LegacyMetrics.mk
                (Py.sum (map legacy_lines_of rs))
                (Z.of_nat (List.length rs))
                (Py.sort_desc LegacyFile.lines (map legacy_detail_of rs)))
    end.
Proof.
  unfold aggregate, legacy_records_of.
  rewrite get_map_values,
    (get_fold legacy_add legacy_namespace_of legacy_bump legacy_init get_legacy_add).
  cbn [Dict.get Dict.empty Dict.value_or].
  destruct (filter (fun c => String.eqb (legacy_namespace_of c) ns) changes)
    as [|r rs] eqn:E; [reflexivity|].
  cbn [option_map]. f_equal.
  pose proof (fold_legacy_bump (r :: rs) legacy_init) as H.
  cbv zeta in H. destruct H as (Hl & Hc & Hf).
  unfold legacy_sort_files. rewrite Hl, Hc, Hf.
  cbn [legacy_init LegacyMetrics.lines_changed LegacyMetrics.file_count
       LegacyMetrics.files app].
  f_equal; lia.
Qed.

Lemma get_aggregate_with_details (changes : list change) (ns : string) :
  Dict.get ns (aggregate_with_details changes) =
    match records_of ns changes with
    | [] => None
    | rs => Some (sort_and_detect (fold_left bump rs init))
    end.
Proof.
  unfold aggregate_with_details.
  rewrite get_map_values, get_fold_add_change.
  cbn [Dict.get Dict.empty entry_or_init].
  destruct (records_of ns changes); reflexivity.
Qed.

Lemma legacy_records_of_map (ns : string) (changes : list change) :
  legacy_records_of ns (map to_legacy changes)
  = map to_legacy (records_of ns changes).
Proof.
  unfold legacy_records_of, records_of.
  induction changes as [|c changes IH]; cbn [map filter]; [reflexivity|].
  change (legacy_namespace_of (to_legacy c)) with (namespace_of c).
  destruct (String.eqb (namespace_of c) ns); cbn [map]; now rewrite IH.
Qed.

End LegacyAggregatorFacts.

(** C7.  [aggregate_with_details] sorts the files of every namespace:
    each namespace of the input has an entry in the aggregate, and in
    every entry the files are the input records of the namespace sorted
    descending by total, records of equal total keeping their relative
    input order. *)
Theorem aggregate_with_details_files_sorted :
  (forall (changes : list ChurnAggregator.change) (ns : string),
     In ns (map ChurnAggregator.namespace_of changes) ->
     exists N : Metrics.t,
       In (ns, N) (Dict.items (ChurnAggregator.aggregate_with_details changes))
       /\ Metrics.files N
          = Py.sort_desc FileDetail.total
              (map ChurnAggregator.detail_of (ChurnAggregator.records_of ns changes))
       /\ Metrics.files N <> [])
  /\ (forall (changes : list ChurnAggregator.change) (ns : string) (N : Metrics.t),
        In (ns, N) (Dict.items (ChurnAggregator.aggregate_with_details changes)) ->
        Py.descending FileDetail.total (Metrics.files N)
        /\ Permutation (Metrics.files N)
             (map ChurnAggregator.detail_of (ChurnAggregator.records_of ns changes))
        /\ forall t : Z,
             filter (fun f => FileDetail.total f =? t) (Metrics.files N)
             = filter (fun f => FileDetail.total f =? t)
                 (map ChurnAggregator.detail_of
                    (ChurnAggregator.records_of ns changes))).
Proof.
  split.
  - intros changes ns Hin.
    assert (Hne : ChurnAggregator.records_of ns changes <> []).
    { unfold ChurnAggregator.records_of. apply in_map_iff in Hin.
      destruct Hin as (c & Hc & Hin). intros E.
      assert (H : In c (filter (fun c => String.eqb (ChurnAggregator.namespace_of c) ns)
                          changes)).
      { apply filter_In. split; [exact Hin|]. rewrite Hc. apply String.eqb_refl. }
      rewrite E in H. exact H. }
    pose proof (get_aggregate_with_details changes ns) as Hget.
    destruct (ChurnAggregator.records_of ns changes) as [|r rs] eqn:E; [congruence|].
    apply get_In in Hget. rewrite <- E in *.
    eexists. split; [exact Hget|].
    destruct (aggregate_entry_fields changes ns _ Hget) as (_ & _ & _ & _ & _ & Hf & _).
    split; [exact Hf|].
    rewrite Hf, E. intros Hnil.
    pose proof (sort_desc_Permutation FileDetail.total
                  (map ChurnAggregator.detail_of (r :: rs))) as HP.
    rewrite Hnil in HP. cbn [map] in HP.
    exact (Permutation_nil_cons HP).
  - intros changes ns N Hin.
    destruct (aggregate_entry_fields changes ns N Hin) as (_ & _ & _ & _ & _ & Hf & _).
    rewrite Hf.
    split; [apply sort_desc_descending|].
    split; [apply sort_desc_Permutation|].
    intros t. apply sort_desc_stable.
Qed.

(** Three records of one namespace among those of another, two of them
    of equal total: the larger one comes first, the equal ones stay in
    input order. *)
Lemma aggregate_with_details_files_sorted_witness :
  exists N : Metrics.t,
    In ("S", N)
      (Dict.items
         (ChurnAggregator.aggregate_with_details
            [("S", 30, 20, "b.cs"); ("T", 1, 1, "t.cs"); ("S", 80, 20, "a.cs");
             ("S", 25, 25, "c.cs")]))
    /\ Metrics.files N
       = [FileDetail.mk "a.cs" 80 20 100; FileDetail.mk "b.cs" 30 20 50;
          FileDetail.mk "c.cs" 25 25 50].
Proof.
  destruct (proj1 aggregate_with_details_files_sorted
              [("S", 30, 20, "b.cs"); ("T", 1, 1, "t.cs"); ("S", 80, 20, "a.cs");
               ("S", 25, 25, "c.cs")] "S") as (N & Hin & Hf & _).
  - cbn [map ChurnAggregator.namespace_of fst]. now left.
  - exists N. split; [exact Hin | exact Hf].
Defined.

Lemma sort_desc_map {A B : Type} (keyA : A -> Z) (keyB : B -> Z) (g : A -> B)
  (l : list A) :
  (forall x, keyB (g x) = keyA x) ->
  Py.sort_desc keyB (map g l) = map g (Py.sort_desc keyA l).
Proof.
  intros Hk.
  assert (Hins : forall x l', Py.insert_desc keyB (g x) (map g l')
                              = map g (Py.insert_desc keyA x l')).
  { intros x l'. induction l' as [|y l' IH]; cbn [map Py.insert_desc]; [reflexivity|].
    rewrite !Hk. destruct (keyA x <? keyA y); cbn [map]; [now rewrite IH | reflexivity]. }
  induction l as [|x l IH]; cbn [map Py.sort_desc]; [reflexivity|].
  now rewrite IH, Hins.
Qed.

(** X6.  Every entry of the legacy aggregate has [lines_changed] equal to
    the sum of the lines of the input tuples of its namespace and to the
    sum over its files, [file_count] equal to the number of those tuples,
    and its files sorted descending by lines with equal lines in input
    order; the namespaces are those of the input in the order of their
    first occurrence. *)
Theorem aggregate_legacy_totals :
  forall changes : list ChurnAggregator.legacy_change,
    Dict.keys (ChurnAggregator.aggregate changes)
    = ChurnAggregator.first_seen [] (map ChurnAggregator.legacy_namespace_of changes)
    /\ forall (ns : string) (m : LegacyMetrics.t),
         In (ns, m) (Dict.items (ChurnAggregator.aggregate changes)) ->
         let rs := ChurnAggregator.legacy_records_of ns changes in
         rs <> []
         /\ LegacyMetrics.lines_changed m
            = Py.sum (map ChurnAggregator.legacy_lines_of rs)
         /\ LegacyMetrics.lines_changed m
            = Py.sum (map LegacyFile.lines (LegacyMetrics.files m))
         /\ LegacyMetrics.file_count m = Z.of_nat (List.length rs)
         /\ LegacyMetrics.file_count m
            = Z.of_nat (List.length (LegacyMetrics.files m))
         /\ Py.descending LegacyFile.lines (LegacyMetrics.files m)
         /\ forall t : Z,
              filter (fun f => LegacyFile.lines f =? t) (LegacyMetrics.files m)
              = filter (fun f => LegacyFile.lines f =? t)
                  (map ChurnAggregator.legacy_detail_of rs).
Proof.
  intros changes. split; [apply keys_aggregate|].
  intros ns m Hin. cbv zeta.
  apply In_get in Hin.
  2:{ rewrite keys_aggregate. apply first_seen_NoDup. }
  rewrite get_aggregate in Hin.
  destruct (ChurnAggregator.legacy_records_of ns changes) as [|r rs];
    [discriminate|].
  assert (Hne : r :: rs <> []) by discriminate.
  revert Hin Hne. generalize (r :: rs). intros l Hin Hne.
  injection Hin as <-.
  cbn [LegacyMetrics.lines_changed LegacyMetrics.file_count LegacyMetrics.files].
  split; [exact Hne|]. split; [reflexivity|].
  split.
  { rewrite (sum_Permutation _ _
               (Permutation_map LegacyFile.lines
                  (sort_desc_Permutation LegacyFile.lines _))).
    rewrite map_map. reflexivity. }
  split; [reflexivity|].
  split.
  { rewrite (Permutation_length (sort_desc_Permutation LegacyFile.lines _)).
    now rewrite length_map. }
  split; [apply sort_desc_descending|].
  intros t. apply sort_desc_stable.
Qed.

Lemma aggregate_legacy_totals_witness :
  let m := LegacyMetrics.mk 150 2
             [LegacyFile.mk "a.cs" 100; LegacyFile.mk "b.cs" 50] in
  LegacyMetrics.lines_changed m
  = Py.sum (map LegacyFile.lines (LegacyMetrics.files m))
  /\ Py.descending LegacyFile.lines (LegacyMetrics.files m).
Proof.
  intros m.
  destruct (proj2 (aggregate_legacy_totals [("S", 50, "b.cs"); ("S", 100, "a.cs")])
              "S" m (or_introl eq_refl))
    as (_ & _ & H1 & _ & _ & H2 & _).
  split; assumption.
Defined.

(** X7.  Legacy and enhanced mode agree: aggregating the legacy tuples
    [(namespace, added + deleted, path)] of a list of changes gives, for
    every namespace, the total, the file count and the per-file totals, in
    the same order, that the enhanced aggregate of the changes gives; and
    the namespaces come in the same order. *)
Theorem aggregate_modes_agree :
  forall changes : list ChurnAggregator.change,
    Dict.keys (ChurnAggregator.aggregate (map ChurnAggregator.to_legacy changes))
    = Dict.keys (ChurnAggregator.aggregate_with_details changes)
    /\ (forall ns : string,
          Dict.get ns (ChurnAggregator.aggregate (map ChurnAggregator.to_legacy changes))
          = option_map ChurnAggregator.metrics_to_legacy
              (Dict.get ns (ChurnAggregator.aggregate_with_details changes)))
    /\ map Analyzer.to_legacy changes = map ChurnAggregator.to_legacy changes.
Proof.
  intros changes. split; [|split].
  3:{ apply map_ext. intros [[[n a] d] fp]. reflexivity. }
  - rewrite keys_aggregate, keys_aggregate_with_details, map_map. reflexivity.
  - intros ns.
    rewrite get_aggregate, get_aggregate_with_details, legacy_records_of_map.
    destruct (ChurnAggregator.records_of ns changes) as [|r rs] eqn:E;
      [reflexivity|].
    cbn [map option_map]. rewrite <- !map_cons. f_equal.
    pose proof (fold_bump (r :: rs) ChurnAggregator.init) as H.
    cbv zeta in H. destruct H as (_ & _ & Ht & Hc & Hf & _).
    unfold ChurnAggregator.metrics_to_legacy, ChurnAggregator.sort_and_detect.
    cbn [Metrics.total Metrics.file_count Metrics.files].
    rewrite Ht, Hc, Hf.
    cbn [ChurnAggregator.init Metrics.total Metrics.file_count Metrics.files app].
    f_equal.
    + rewrite !map_map. cbn [Z.add]. f_equal.
    + now rewrite length_map.
    + rewrite <- (sort_desc_map FileDetail.total LegacyFile.lines
                    ChurnAggregator.file_to_legacy) by reflexivity.
      rewrite !map_map. reflexivity.
Qed.

(** ** Filtering and ordering of the report *)

Lemma NoDup_keys_filter {V : Type} (keep : string * V -> bool) (l : list (string * V)) :
  NoDup (map fst l) -> NoDup (map fst (filter keep l)).
Proof.
  induction l as [|x l IH]; cbn [filter map]; [easy|].
  intros H. inversion H as [|? ? Hn Hd]; subst.
  destruct (keep x); cbn [map]; [|now apply IH].
  constructor; [|now apply IH].
  intros Hin. apply Hn. apply in_map_iff in Hin.
  destruct Hin as (y & Hy & Hin). apply filter_In in Hin.
  apply in_map_iff. exists y. tauto.
Qed.

Lemma filter_filter {A : Type} (f g : A -> bool) (l : list A) :
  filter f (filter g l) = filter (fun x => g x && f x) l.
Proof.
  induction l as [|x l IH]; cbn [filter]; [reflexivity|].
  destruct (g x); cbn [filter andb]; [destruct (f x)|]; now rewrite IH.
Qed.

(** X8.  The rows of the enhanced report, the aggregate filtered by the
    threshold and ordered by total: they are exactly the entries of the
    aggregate whose total is at least the threshold, no namespace occurs
    twice, the totals descend, and namespaces of equal total stay in the
    order in which the input first mentioned them. *)
Theorem enhanced_report_rows :
  forall (changes : list ChurnAggregator.change) (min_threshold : Z),
    let aggregated := ChurnAggregator.aggregate_with_details changes in
    let filtered := ChurnAggregator.filter_total aggregated min_threshold in
    let rows := ChurnAggregator.sort_by_total filtered in
    (forall (ns : string) (m : Metrics.t),
       In (ns, m) rows
       <-> In (ns, m) (Dict.items aggregated) /\ min_threshold <= Metrics.total m)
    /\ NoDup (map fst rows)
    /\ Py.descending (fun x => Metrics.total (snd x)) rows
    /\ (forall t : Z,
          filter (fun x => Metrics.total (snd x) =? t) rows
          = filter (fun x => (Metrics.total (snd x) >=? min_threshold)
                             && (Metrics.total (snd x) =? t))
              (Dict.items aggregated)).
Proof.
  intros changes t. cbv zeta.
  unfold ChurnAggregator.sort_by_total, ChurnAggregator.filter_total,
    Dict.filter_values, Dict.items.
  set (key := fun x : string * Metrics.t => Metrics.total (snd x)).
  pose proof (sort_desc_Permutation key
                (filter (fun kv => Metrics.total (snd kv) >=? t)
                   (ChurnAggregator.aggregate_with_details changes))) as P.
  split; [|split; [|split]].
  - intros ns m. split.
    + intros H. apply (Permutation_in _ P) in H. apply filter_In in H.
      cbn [snd] in H. rewrite Z.geb_le in H. exact H.
    + intros [H Ht]. apply (Permutation_in _ (Permutation_sym P)).
      apply filter_In. cbn [snd]. rewrite Z.geb_le. tauto.
  - apply (Permutation_NoDup (Permutation_sym (Permutation_map fst P))).
    apply NoDup_keys_filter.
    change (NoDup (Dict.keys (ChurnAggregator.aggregate_with_details changes))).
    rewrite keys_aggregate_with_details. apply first_seen_NoDup.
  - apply sort_desc_descending.
  - intros t'. rewrite (sort_desc_stable key t'). apply filter_filter.
Qed.

(** X9.  The rows of the legacy report obey the same rules on
    [lines_changed]. *)
Theorem legacy_report_rows :
  forall (changes : list ChurnAggregator.legacy_change) (min_threshold : Z),
    let aggregated := ChurnAggregator.aggregate changes in
    let filtered := ChurnAggregator.filter_by_threshold aggregated min_threshold in
    let rows := ChurnAggregator.sort_by_churn filtered in
    (forall (ns : string) (m : LegacyMetrics.t),
       In (ns, m) rows
       <-> In (ns, m) (Dict.items aggregated)
           /\ min_threshold <= LegacyMetrics.lines_changed m)
    /\ NoDup (map fst rows)
    /\ Py.descending (fun x => LegacyMetrics.lines_changed (snd x)) rows
    /\ (forall t : Z,
          filter (fun x => LegacyMetrics.lines_changed (snd x) =? t) rows
          = filter (fun x => (LegacyMetrics.lines_changed (snd x) >=? min_threshold)
                             && (LegacyMetrics.lines_changed (snd x) =? t))
              (Dict.items aggregated)).
Proof.
  intros changes t. cbv zeta.
  unfold ChurnAggregator.sort_by_churn, ChurnAggregator.filter_by_threshold,
    Dict.filter_values, Dict.items.
  set (key := fun x : string * LegacyMetrics.t => LegacyMetrics.lines_changed (snd x)).
  pose proof (sort_desc_Permutation key
                (filter (fun kv => LegacyMetrics.lines_changed (snd kv) >=? t)
                   (ChurnAggregator.aggregate changes))) as P.
  split; [|split; [|split]].
  - intros ns m. split.
    + intros H. apply (Permutation_in _ P) in H. apply filter_In in H.
      cbn [snd] in H. rewrite Z.geb_le in H. exact H.
    + intros [H Ht]. apply (Permutation_in _ (Permutation_sym P)).
      apply filter_In. cbn [snd]. rewrite Z.geb_le. tauto.
  - apply (Permutation_NoDup (Permutation_sym (Permutation_map fst P))).
    apply NoDup_keys_filter.
    change (NoDup (Dict.keys (ChurnAggregator.aggregate changes))).
    rewrite keys_aggregate. apply first_seen_NoDup.
  - apply sort_desc_descending.
  - intros t'. rewrite (sort_desc_stable key t'). apply filter_filter.
Qed.

(** X10.  Filtering by one threshold and then by another is filtering by
    the larger of the two, in either order; a threshold that no total
    falls below changes nothing. *)
Theorem filter_by_threshold_compose :
  (forall (aggregated : Dict.t LegacyMetrics.t) (t1 t2 : Z),
     ChurnAggregator.filter_by_threshold
       (ChurnAggregator.filter_by_threshold aggregated t1) t2
     = ChurnAggregator.filter_by_threshold aggregated (Z.max t1 t2))
  /\ (forall (aggregated : Dict.t LegacyMetrics.t) (t : Z),
        (forall ns m, In (ns, m) (Dict.items aggregated) ->
                      t <= LegacyMetrics.lines_changed m) ->
        ChurnAggregator.filter_by_threshold aggregated t = aggregated).
Proof.
  split.
  - intros aggregated t1 t2.
    unfold ChurnAggregator.filter_by_threshold, Dict.filter_values.
    rewrite filter_filter. apply filter_ext. intros [ns m]. cbn [snd].
    apply eq_true_iff_eq. rewrite andb_true_iff, !Z.geb_le. lia.
  - intros aggregated t H.
    unfold ChurnAggregator.filter_by_threshold, Dict.filter_values.
    induction aggregated as [|[ns m] l IH]; cbn [filter snd]; [reflexivity|].
    assert (Hm : (LegacyMetrics.lines_changed m >=? t) = true)
      by (apply Z.geb_le; apply (H ns m); now left).
    rewrite Hm. f_equal. apply IH. intros ns' m' Hin. apply (H ns' m'). now right.
Qed.

Lemma filter_by_threshold_compose_witness :
  ChurnAggregator.filter_by_threshold
    [("A", LegacyMetrics.mk 150 2 []); ("B", LegacyMetrics.mk 100 1 [])] 100
  = [("A", LegacyMetrics.mk 150 2 []); ("B", LegacyMetrics.mk 100 1 [])].
Proof.
  apply (proj2 filter_by_threshold_compose).
  intros ns m [H|[H|[]]]; injection H as <- <-; cbn; lia.
Defined.

(** ** Ownership *)

Section MaxFirst.
Context {A : Type} (key : A -> Z).

Lemma fold_max_first (l : list A) :
  forall x best : A,
    fold_left (fun best y => if key y >? key best then y else best) l x = best ->
    (best = x /\ forall y, In y l -> key y <= key x)
    \/ exists l1 l2 : list A,
         l = l1 ++ best :: l2
         /\ key x < key best
         /\ (forall y, In y l1 -> key y < key best)
         /\ (forall y, In y l2 -> key y <= key best).
Proof.
  induction l as [|z l IH]; intros x best Hf; cbn [fold_left] in Hf.
  - left. split; [now symmetry | intros y []].
  - destruct (key z >? key x) eqn:E;
      [apply Z.gtb_lt in E | rewrite Z.gtb_ltb in E; apply Z.ltb_ge in E].
    + destruct (IH z best Hf) as [[Hb Hall] | (l1 & l2 & Hl & Hlt & H1 & H2)].
      * right. exists [], l. rewrite Hb. cbn [app].
        repeat split; [exact E | intros y [] | exact Hall].
      * right. exists (z :: l1), l2. subst l. cbn [app].
        repeat split; [lia | | exact H2].
        intros y [<-|Hy]; [exact Hlt | now apply H1].
    + destruct (IH x best Hf) as [[Hb Hall] | (l1 & l2 & Hl & Hlt & H1 & H2)].
      * left. split; [exact Hb|]. intros y [<-|Hy]; [exact E | now apply Hall].
      * right. exists (z :: l1), l2. subst l. cbn [app].
        repeat split; [exact Hlt | | exact H2].
        intros y [<-|Hy]; [lia | now apply H1].
Qed.

(** [max] returns the first element of maximal key. *)
Lemma max_by_first (l : list A) (x : A) :
  Py.max_by key l = Some x ->
  exists l1 l2 : list A,
    l = l1 ++ x :: l2
    /\ (forall y, In y l1 -> key y < key x)
    /\ (forall y, In y l2 -> key y <= key x).
Proof.
  destruct l as [|z l]; cbn [Py.max_by]; [discriminate|].
  intros H. injection H as H.
  destruct (fold_max_first l z x H) as [[-> Hall] | (l1 & l2 & -> & Hlt & H1 & H2)].
  - exists [], l. cbn [app]. repeat split; [intros y [] | exact Hall].
  - exists (z :: l1), l2. cbn [app]. repeat split; [|exact H2].
    intros y [<-|Hy]; [exact Hlt | now apply H1].
Qed.

End MaxFirst.

Section OwnershipMore.
Import AuthorshipAnalyzer.

(** What [calculate_ownership] stores under a namespace, in terms of the
    author table of the first phase. *)
Lemma ownership_entry (ac : Dict.t (list observation)) (own : Dict.t Ownership.t)
  (ns : string) (o : Ownership.t) :
  calculate_ownership ac = Some own ->
  In (ns, o) (Dict.items own) ->
  exists (authors : Dict.t Z) (pa : string) (pl : Z),
    In (ns, authors) (Dict.items (collect ac))
    /\ Py.max_by snd (Dict.items authors) = Some (pa, pl)
    /\ o = Ownership.mk pa pl (Py.sum (Dict.values authors))
             (percent pl (Py.sum (Dict.values authors))) authors.
Proof.
  unfold calculate_ownership. intros Hb Hin.
  destruct (build_In _ _ _ Hb ns o Hin) as [[]|(authors & Hau & He)].
  unfold entry in He.
  destruct (Py.max_by snd (Dict.items authors)) as [[pa pl]|] eqn:Hmax; [|discriminate].
  injection He as <-. exists authors, pa, pl. cbn [fst snd]. auto.
Qed.




End OwnershipMore.

(** X11.  When several authors of a namespace reach the maximal line
    count, the primary author is the first of them in the order of the
    author table: every author before the primary one has strictly fewer
    lines.  The tie is decided by iteration order. *)
Theorem calculate_ownership_first_maximal :
  forall (author_changes : Dict.t (list AuthorshipAnalyzer.observation))
         (ownership : Dict.t Ownership.t) (ns : string) (o : Ownership.t),
    AuthorshipAnalyzer.calculate_ownership author_changes = Some ownership ->
    In (ns, o) (Dict.items ownership) ->
    exists before after : list (string * Z),
      Dict.items (Ownership.all_authors o)
      = before ++ (Ownership.primary_author o, Ownership.primary_lines o) :: after
      /\ (forall a n, In (a, n) before -> n < Ownership.primary_lines o)
      /\ (forall a n, In (a, n) after -> n <= Ownership.primary_lines o).
Proof.
  intros ac own ns o Hc Hin.
  destruct (ownership_entry ac own ns o Hc Hin) as (authors & pa & pl & _ & Hmax & ->).
  cbn [Ownership.all_authors Ownership.primary_author Ownership.primary_lines].
  destruct (max_by_first snd _ _ Hmax) as (l1 & l2 & Hl & H1 & H2).
  exists l1, l2. split; [exact Hl|]. split.
  - intros a n H. apply (H1 (a, n) H).
  - intros a n H. apply (H2 (a, n) H).
Qed.

Lemma calculate_ownership_first_maximal_witness :
  exists before after : list (string * Z),
    [("A", 50); ("B", 50)] = before ++ ("A", 50) :: after
    /\ (forall a n, In (a, n) before -> n < 50)
    /\ (forall a n, In (a, n) after -> n <= 50).
Proof.
  apply (calculate_ownership_first_maximal
           [("A", [("X", "a.cs", 50)]); ("B", [("X", "b.cs", 50)])]
           [("X", Ownership.mk "A" 50 100 (AuthorshipAnalyzer.percent 50 100)
                    [("A", 50); ("B", 50)])]
           "X"
           (Ownership.mk "A" 50 100 (AuthorshipAnalyzer.percent 50 100)
              [("A", 50); ("B", 50)])).
  - vm_compute. reflexivity.
  - left. reflexivity.
Defined.



(** ** The history stage and the orchestration *)

Section HistoryFacts.
Import Analyzer.
Variable w : World.

Lemma extract_namespace_from_file_run (filepath : string) (sp : option string)
  (tr : list event) :
  _extract_namespace_from_file w filepath sp tr
  = (inr (namespace_at w sp filepath), tr ++ [OpenRead (full_path sp filepath)]).
Proof.
  unfold _extract_namespace_from_file, namespace_at, full_path, bind, emit, ret.
  destruct (read w _); reflexivity.
Qed.

Lemma repository_line_run (sp : option string) (line : string) (tr : list event) :
  repository_line w sp line tr
  = (inr (map (change_at w sp) (line_records line)),
     tr ++ map (open_event sp) (line_records line)).
Proof.
  unfold repository_line, line_records.
  destruct (String.eqb line "") eqn:E.
  - apply String.eqb_eq in E. subst line. unfold ret. cbn. now rewrite app_nil_r.
  - destruct (GitLogParser.parse_numstat_line line) as [[[a d] fp]|].
    + destruct (GitLogParser.is_dotnet_file fp); cbn [negb map].
      * unfold bind. rewrite extract_namespace_from_file_run. reflexivity.
      * unfold ret. now rewrite app_nil_r.
    + unfold ret. cbn [map]. now rewrite app_nil_r.
Qed.

Lemma for_each_repository_line (sp : option string) (lines : list string) :
  forall tr : list event,
    for_each (repository_line w sp) lines tr
    = (inr (map (fun line => map (change_at w sp) (line_records line)) lines),
       tr ++ flat_map (fun line => map (open_event sp) (line_records line)) lines).
Proof.
  induction lines as [|line lines IH]; intros tr; cbn [for_each map flat_map].
  - unfold ret. now rewrite app_nil_r.
  - unfold bind at 1. rewrite repository_line_run.
    unfold bind at 1. rewrite IH. unfold ret. now rewrite <- app_assoc.
Qed.

Lemma concat_map_map {A B C : Type} (f : B -> C) (g : A -> list B) (l : list A) :
  concat (map (fun x => map f (g x)) l) = map f (flat_map g l).
Proof.
  induction l as [|x l IH]; cbn [map concat flat_map]; [reflexivity|].
  now rewrite map_app, IH.
Qed.

Lemma flat_map_map {A B C : Type} (f : B -> C) (g : A -> list B) (l : list A) :
  flat_map (fun x => map f (g x)) l = map f (flat_map g l).
Proof.
  induction l as [|x l IH]; cbn [flat_map]; [reflexivity|].
  now rewrite map_app, IH.
Qed.

(** The three outcomes of [_analyze_repository]. *)
Lemma analyze_repository_run (period : string) (sp : option string)
  (tr : list event) :
  let cmd := GitCommandBuilder.build_log_command period sp in
  let result := shell w cmd in
  _analyze_repository w period sp tr =
    if returncode result =? 0 then
      (inr (map (change_at w sp) (dotnet_records (stdout result))),
       tr ++ Shell cmd :: map (open_event sp) (dotnet_records (stdout result)))
    else if Py.contains (stderr result) "not a git repository" then
      (inl (RuntimeError not_a_repository), tr ++ [Shell cmd])
    else (inr [], tr ++ [Shell cmd]).
Proof.
  cbv zeta. unfold _analyze_repository, run_shell.
  unfold bind at 1. unfold bind at 1. unfold emit, ret at 1.
  destruct (returncode (shell w (GitCommandBuilder.build_log_command period sp)) =? 0);
    cbn [negb].
  - unfold bind. rewrite for_each_repository_line. unfold ret, dotnet_records,
      numstat_lines.
    rewrite concat_map_map, flat_map_map, <- app_assoc. reflexivity.
  - destruct (Py.contains _ _); reflexivity.
Qed.

End HistoryFacts.

(** X13.  [_analyze_repository] runs the history command once and then
    either fails or reads files.  If the command fails and its error text
    says the directory is not a git repository, [RuntimeError] is raised and
    no file is read; if it fails otherwise the result is empty and no file
    is read; if it succeeds the result has one change per parsed line that
    names a .NET file, in order, exactly those files are opened, in that
    order, and nothing is raised. *)
Theorem analyze_repository_outcomes :
  forall (w : Analyzer.World) (period : string) (sp : option string)
         (tr : list Analyzer.event),
    let cmd := GitCommandBuilder.build_log_command period sp in
    let result := Analyzer.shell w cmd in
    Analyzer._analyze_repository w period sp tr =
      (if Analyzer.returncode result =? 0 then
         (inr (map (Analyzer.change_at w sp)
                 (Analyzer.dotnet_records (Analyzer.stdout result))),
          tr ++ Analyzer.Shell cmd
             :: map (Analyzer.open_event sp)
                  (Analyzer.dotnet_records (Analyzer.stdout result)))
       else if Py.contains (Analyzer.stderr result) "not a git repository" then
         (inl (Analyzer.RuntimeError Analyzer.not_a_repository),
          tr ++ [Analyzer.Shell cmd])
       else (inr [], tr ++ [Analyzer.Shell cmd]))
    /\ Forall (fun r => GitLogParser.is_dotnet_file (snd r) = true)
         (Analyzer.dotnet_records (Analyzer.stdout result)).
Proof.
  intros w period sp tr. cbv zeta. split; [apply analyze_repository_run|].
  unfold Analyzer.dotnet_records. apply Forall_forall. intros r Hr.
  apply in_flat_map in Hr. destruct Hr as (line & _ & Hr).
  unfold Analyzer.line_records in Hr.
  destruct (GitLogParser.parse_numstat_line line) as [[[a d] fp]|]; [|contradiction].
  destruct (GitLogParser.is_dotnet_file fp) eqn:E; [|contradiction].
  destruct Hr as [<-|[]]. exact E.
Qed.

(** X14.  With a valid period, a history command that fails because the
    directory is not a git repository aborts the run: [analyze] raises
    [RuntimeError] after that one command, and [main] exits with code 1
    after printing the error to the error stream, whatever the other
    arguments are. *)
Theorem not_a_repository_is_fatal :
  forall (w : Analyzer.World) (co : Analyzer.Collaborators) (a : Analyzer.args)
         (tr : list Analyzer.event),
    GitCommandBuilder.is_valid_period (Analyzer.arg_period a) = true ->
    let cmd := GitCommandBuilder.build_log_command (Analyzer.arg_period a) None in
    Analyzer.returncode (Analyzer.shell w cmd) <> 0 ->
    Py.contains (Analyzer.stderr (Analyzer.shell w cmd)) "not a git repository" = true ->
    Analyzer.analyze w co (Analyzer.arg_period a) (Analyzer.arg_threshold a)
      (Analyzer.arg_format a)
      (if Analyzer.arg_enhanced a then true else Analyzer.arg_detailed a)
      (Analyzer.arg_enhanced a) tr
    = (inl (Analyzer.RuntimeError Analyzer.not_a_repository),
       tr ++ [Analyzer.Shell cmd])
    /\ Analyzer.main w co a tr
       = (1, tr ++ [Analyzer.Shell cmd;
                    Analyzer.PrintErr
                      (Analyzer.text_of
                         "Error: Not a git repository. Run from repository root.")]).
Proof.
  intros w co a tr Hv cmd Hrc Herr.
  assert (Han : Analyzer.analyze w co (Analyzer.arg_period a) (Analyzer.arg_threshold a)
                  (Analyzer.arg_format a)
                  (if Analyzer.arg_enhanced a then true else Analyzer.arg_detailed a)
                  (Analyzer.arg_enhanced a) tr
                = (inl (Analyzer.RuntimeError Analyzer.not_a_repository),
                   tr ++ [Analyzer.Shell cmd])).
  { unfold Analyzer.analyze. rewrite Hv. cbn [negb].
    unfold Analyzer.bind at 1. rewrite analyze_repository_run. cbv zeta.
    fold cmd. apply Z.eqb_neq in Hrc. rewrite Hrc, Herr. reflexivity. }
  split; [exact Han|].
  unfold Analyzer.main. rewrite Han. rewrite <- app_assoc. reflexivity.
Qed.

Lemma not_a_repository_is_fatal_witness :
  Analyzer.main (Analyzer.failing_world 128 "fatal: not a git repository")
    Analyzer.quiet_collaborators
    (Analyzer.mk_args "1 month" 100 "console" false false) []
  = (1, [Analyzer.Shell (GitCommandBuilder.build_log_command "1 month" None);
         Analyzer.PrintErr
           (Analyzer.text_of "Error: Not a git repository. Run from repository root.")]).
Proof.
  apply (proj2 (not_a_repository_is_fatal
                  (Analyzer.failing_world 128 "fatal: not a git repository")
                  Analyzer.quiet_collaborators
                  (Analyzer.mk_args "1 month" 100 "console" false false) []
                  eq_refl ltac:(discriminate) eq_refl)).
Defined.



Section SubmoduleFacts.
Import Analyzer.
Variable w : World.

Lemma submodule_line_records (sp line : string) :
  submodule_line sp line
  = map (fun r => (sp, fst (fst r), snd (fst r), snd (prefixed sp r)))
      (line_records line).
Proof.
  unfold submodule_line, line_records.
  destruct (String.eqb line "") eqn:E.
  - apply String.eqb_eq in E. subst line. reflexivity.
  - destruct (GitLogParser.parse_numstat_line line) as [[[a d] fp]|]; [|reflexivity].
    destruct (GitLogParser.is_dotnet_file fp); reflexivity.
Qed.

Lemma for_each_submodule_change (rs : list (string * Z * Z * string)) :
  forall tr : list event,
    for_each
      (fun r =>
         let '(_, added, deleted, filepath) := r in
         bind (_extract_namespace_from_file w filepath None)
           (fun namespace => ret (namespace, added, deleted, filepath)))
      rs tr
    = (inr (map (fun r => change_at w None (snd (fst (fst r)), snd (fst r), snd r)) rs),
       tr ++ map (fun r => OpenRead (snd r)) rs).
Proof.
  induction rs as [|[[[s a] d] fp] rs IH]; intros tr; cbn [for_each map].
  - unfold ret. now rewrite app_nil_r.
  - unfold bind at 1. unfold bind at 1.
    rewrite extract_namespace_from_file_run.
    unfold ret at 1. unfold bind at 1. rewrite IH. unfold ret.
    rewrite <- app_assoc. reflexivity.
Qed.

(** The outcomes of [_analyze_submodule_changes]. *)
Lemma analyze_submodule_changes_run (sp period : string) (tr : list event) :
  let cmd := GitCommandBuilder.build_log_command period (Some sp) in
  let recs := map (prefixed sp) (dotnet_records (stdout (shell w cmd))) in
  _analyze_submodule_changes w sp period tr =
    if negb (isdir w sp) then (inr [], tr ++ [Probe sp])
    else if negb (returncode (exec w (rev_parse sp)) =? 0)
    then (inr [], tr ++ [Probe sp; Exec (rev_parse sp)])
    else if negb (returncode (shell w cmd) =? 0)
    then (inr [], tr ++ [Probe sp; Exec (rev_parse sp); Shell cmd])
    else (inr (map (change_at w None) recs),
          tr ++ [Probe sp; Exec (rev_parse sp); Shell cmd]
             ++ map (open_event None) recs).
Proof.
  cbv zeta. unfold _analyze_submodule_changes, analyze_submodule, run_exec,
    run_shell, rev_parse.
  unfold bind at 1. unfold bind at 1. unfold emit at 1.
  destruct (isdir w sp); cbn [negb]; [|reflexivity].
  unfold bind at 1. unfold bind at 1. unfold emit at 1, ret at 1.
  destruct (returncode (exec w _) =? 0); cbn [negb];
    [|unfold ret; now rewrite <- app_assoc].
  unfold bind at 1. unfold bind at 1. unfold emit at 1, ret at 1.
  destruct (returncode (shell w _) =? 0); cbn [negb];
    [|unfold ret; now rewrite <- !app_assoc].
  unfold ret at 1.
  set (out := stdout (shell w (GitCommandBuilder.build_log_command period (Some sp)))).
  assert (Hrs : flat_map (submodule_line sp) (Py.split Py.newline (Py.strip out))
                = map (fun r => (sp, fst (fst r), snd (fst r), snd (prefixed sp r)))
                    (dotnet_records out)).
  { unfold dotnet_records, numstat_lines. rewrite <- flat_map_map.
    apply flat_map_ext. intros line. apply submodule_line_records. }
  rewrite Hrs. clear Hrs.
  rewrite !map_map.
  remember (map (fun r => (sp, fst (fst r), snd (fst r), snd (prefixed sp r)))
              (dotnet_records out)) as l eqn:El.
  destruct l as [|x l].
  - destruct (dotnet_records out); [|discriminate].
    unfold ret. rewrite <- !app_assoc. reflexivity.
  - rewrite for_each_submodule_change, El, !map_map, <- !app_assoc.
    reflexivity.
Qed.

End SubmoduleFacts.

Section StringFacts.

Lemma startswith_app (p s : string) : Py.startswith (p ++ s) p = true.
Proof.
  induction p as [|a p IH]; cbn [String.append].
  - destruct s; reflexivity.
  - cbn [Py.startswith]. now rewrite Ascii.eqb_refl, IH.
Qed.

Lemma length_app (x y : string) :
  String.length (x ++ y) = (String.length x + String.length y)%nat.
Proof.
  induction x as [|a x IH]; cbn [String.append String.length]; [reflexivity|].
  now rewrite IH.
Qed.

Lemma substring_app_skip (x y : string) (n k : nat) :
  substring (String.length x + n) k (x ++ y) = substring n k y.
Proof.
  induction x as [|a x IH]; cbn [String.append String.length Nat.add substring];
    [reflexivity | exact IH].
Qed.

Lemma endswith_app (x s suffix : string) :
  Py.endswith s suffix = true -> Py.endswith (x ++ s) suffix = true.
Proof.
  unfold Py.endswith. rewrite length_app.
  intros H. apply andb_true_iff in H. destruct H as [Hle Heq].
  apply Nat.leb_le in Hle. apply andb_true_iff. split.
  - apply Nat.leb_le. lia.
  - replace (String.length x + String.length s - String.length suffix)%nat
      with (String.length x + (String.length s - String.length suffix))%nat by lia.
    now rewrite substring_app_skip.
Qed.

Lemma is_dotnet_file_app (x filepath : string) :
  GitLogParser.is_dotnet_file filepath = true ->
  GitLogParser.is_dotnet_file (x ++ filepath) = true.
Proof.
  unfold GitLogParser.is_dotnet_file. rewrite !orb_true_iff.
  intros [H|H]; [left | right]; now apply endswith_app.
Qed.

End StringFacts.

(** X16.  A submodule never aborts the run: [_analyze_submodule_changes]
    raises nothing.  If the path is not a directory no git command is run;
    if the repository check or the history command fails the result is
    empty and no file is read.  Every change it reports names a .NET file
    under the submodule path. *)
Theorem submodule_failure_is_absorbed :
  forall (w : Analyzer.World) (sp period : string) (tr : list Analyzer.event),
    let cmd := GitCommandBuilder.build_log_command period (Some sp) in
    exists (changes : list ChurnAggregator.change) (events : list Analyzer.event),
      Analyzer._analyze_submodule_changes w sp period tr = (inr changes, tr ++ events)
      /\ Forall (fun c =>
                   Py.startswith (ChurnAggregator.filepath_of c) (sp ++ "/")%string = true
                   /\ GitLogParser.is_dotnet_file (ChurnAggregator.filepath_of c) = true)
           changes
      /\ (Analyzer.isdir w sp = false ->
           changes = [] /\ events = [Analyzer.Probe sp])
      /\ (Analyzer.returncode (Analyzer.exec w (Analyzer.rev_parse sp)) <> 0 ->
           changes = []
           /\ Forall (fun e => forall path, e <> Analyzer.OpenRead path) events)
      /\ (Analyzer.returncode (Analyzer.shell w cmd) <> 0 ->
           changes = []
           /\ Forall (fun e => forall path, e <> Analyzer.OpenRead path) events).
Proof.
  intros w sp period tr. cbv zeta.
  rewrite analyze_submodule_changes_run. cbv zeta.
  destruct (Analyzer.isdir w sp) eqn:Hd; cbn [negb].
  2:{ eexists; eexists. split; [reflexivity|]. split; [constructor|].
      split; [auto|]. split; intros _; (split; [reflexivity|]);
        repeat constructor; discriminate. }
  destruct (Analyzer.returncode (Analyzer.exec w (Analyzer.rev_parse sp)) =? 0) eqn:Hc;
    cbn [negb].
  2:{ eexists; eexists. split; [reflexivity|]. split; [constructor|].
      split; [discriminate|]. split; intros _; (split; [reflexivity|]);
        repeat constructor; discriminate. }
  apply Z.eqb_eq in Hc.
  destruct (Analyzer.returncode
              (Analyzer.shell w (GitCommandBuilder.build_log_command period (Some sp)))
            =? 0) eqn:Hl; cbn [negb].
  2:{ eexists; eexists. split; [reflexivity|]. split; [constructor|].
      split; [discriminate|]. split; intros _; (split; [reflexivity|]);
        repeat constructor; discriminate. }
  apply Z.eqb_eq in Hl.
  eexists; eexists. split; [reflexivity|]. split.
  - apply Forall_forall. intros c Hc'. apply in_map_iff in Hc'.
    destruct Hc' as (r & <- & Hr). apply in_map_iff in Hr.
    destruct Hr as (r0 & <- & Hr0).
    unfold Analyzer.change_at, Analyzer.prefixed, ChurnAggregator.filepath_of.
    cbn [fst snd]. split.
    + change (sp ++ "/" ++ snd r0)%string with (sp ++ ("/" ++ snd r0))%string.
      replace (sp ++ ("/" ++ snd r0))%string with ((sp ++ "/") ++ snd r0)%string.
      * apply startswith_app.
      * clear. induction sp as [|a sp IH]; cbn [String.append]; [reflexivity|].
        now rewrite IH.
    + apply is_dotnet_file_app, is_dotnet_file_app.
      unfold Analyzer.dotnet_records in Hr0. apply in_flat_map in Hr0.
      destruct Hr0 as (line & _ & Hr0). unfold Analyzer.line_records in Hr0.
      destruct (GitLogParser.parse_numstat_line line) as [[[a d] fp]|]; [|contradiction].
      destruct (GitLogParser.is_dotnet_file fp) eqn:E; [|contradiction].
      destruct Hr0 as [<-|[]]. exact E.
  - split; [discriminate|]. split; intros H; contradiction.
Qed.

(** ** Namespace extraction *)



(** X18.  [extract_namespace] answers with the sentinel without looking
    for a declaration when the text consists of whitespace only, and when
    the file is not one that [is_dotnet_file] accepts. *)
Theorem extract_namespace_sentinel_cases :
  forall content filepath : string,
    Forall (fun c => Py.isspace c = true) (list_ascii_of_string content)
    \/ GitLogParser.is_dotnet_file filepath = false ->
    NamespaceParser.extract_namespace content filepath = NamespaceParser.global.
Proof.
  intros content filepath [H|H].
  - now apply extract_namespace_whitespace.
  - unfold GitLogParser.is_dotnet_file in H. apply orb_false_iff in H.
    destruct H. now apply extract_namespace_other_extension.
Qed.

Lemma extract_namespace_sentinel_cases_witness :
  NamespaceParser.extract_namespace "namespace A.B;" "notes.txt"
  = NamespaceParser.global.
Proof.
  apply extract_namespace_sentinel_cases. right. vm_compute. reflexivity.
Defined.

Section GroupFacts.
Import Regex.

Lemma match_here_Rep (g : bool) (min : nat) (p : ascii -> bool) (r' : regex)
  (prev : option ascii) (pos : nat) (rest : string) (gs ge : nat) :
  match_here (Rep g min p :: r') prev pos rest gs ge
  = rep_loop (fun prev pos rest => match_here r' prev pos rest gs ge)
      g min p 0 prev pos rest.
Proof. reflexivity. Qed.

(** A repetition consumes characters of its class, at least [min] of
    them, and then the remainder of the pattern matches. *)
Lemma rep_loop_spec (k : option ascii -> nat -> string -> option span)
  (g : bool) (min : nat) (p : ascii -> bool) (rest : string) :
  forall (n : nat) (prev : option ascii) (pos : nat) (m : span),
    rep_loop k g min p n prev pos rest = Some m ->
    exists (taken rest' : string) (prev' : option ascii),
      rest = (taken ++ rest')%string
      /\ all_in p taken = true
      /\ (min <= n + String.length taken)%nat
      /\ k prev' (pos + String.length taken)%nat rest' = Some m.
Proof.
  induction rest as [|c rest IH]; intros n prev pos m H; cbn [rep_loop] in H.
  - assert (Hk : (if Nat.leb min n then k prev pos EmptyString else None) = Some m)
      by (destruct g; [exact H|];
          destruct (if Nat.leb min n then k prev pos EmptyString else None);
          [exact H | discriminate]).
    destruct (Nat.leb min n) eqn:E; [|discriminate]. apply Nat.leb_le in E.
    exists EmptyString, EmptyString, prev. cbn [String.append all_in String.length].
    rewrite !Nat.add_0_r. auto.
  - assert (Hcases :
              (p c = true /\ rep_loop k g min p (S n) (Some c) (S pos) rest = Some m)
              \/ (if Nat.leb min n then k prev pos (String c rest) else None) = Some m).
    { destruct g.
      - destruct (p c).
        + destruct (rep_loop k true min p (S n) (Some c) (S pos) rest) eqn:R.
          * left. split; [reflexivity|]. exact H.
          * right. exact H.
        + right. exact H.
      - destruct (if Nat.leb min n then k prev pos (String c rest) else None) eqn:K.
        + right. exact H.
        + left. destruct (p c); [split; [reflexivity | exact H] | discriminate]. }
    destruct Hcases as [[Hp Hr]|Hk].
    + destruct (IH _ _ _ _ Hr) as (taken & rest' & prev' & -> & Hall & Hmin & Hk).
      exists (String c taken), rest', prev'.
      cbn [String.append all_in String.length]. rewrite Hp, Hall.
      repeat split; [lia|].
      replace (pos + S (String.length taken))%nat
        with (S pos + String.length taken)%nat by lia. exact Hk.
    + destruct (Nat.leb min n) eqn:E; [|discriminate]. apply Nat.leb_le in E.
      exists EmptyString, (String c rest), prev.
      cbn [String.append all_in String.length]. rewrite !Nat.add_0_r. auto.
Qed.

(** A pattern without parentheses leaves the span of the group as it
    found it. *)
Lemma plain_offsets (r : regex) :
  plain r = true ->
  forall prev pos rest gs ge m,
    match_here r prev pos rest gs ge = Some m ->
    group_start m = gs /\ group_stop m = ge.
Proof.
  induction r as [|a r IH]; intros Hp prev pos rest gs ge m H.
  - cbn [match_here] in H. injection H as <-. auto.
  - destruct a; cbn [plain] in Hp; try discriminate.
    + cbn [match_here] in H. destruct (at_bol prev); [|discriminate]. eauto.
    + cbn [match_here] in H. destruct (at_eol rest); [|discriminate]. eauto.
    + cbn [match_here] in H. destruct rest as [|c rest]; [discriminate|].
      destruct (p c); [|discriminate]. eauto.
    + rewrite match_here_Rep in H. apply rep_loop_spec in H.
      destruct H as (taken & rest' & prev' & _ & _ & _ & H). eauto.
Qed.

Lemma string_app_assoc (x y z : string) :
  ((x ++ y) ++ z)%string = (x ++ (y ++ z))%string.
Proof.
  induction x as [|a x IH]; cbn [String.append]; [reflexivity | now rewrite IH].
Qed.

Lemma substring_prefix (t r : string) :
  substring 0 (String.length t) (t ++ r) = t.
Proof.
  induction t as [|a t IH]; cbn [String.append String.length substring].
  - destruct r; reflexivity.
  - now rewrite IH.
Qed.

(** The text of the group: characters of the class of its repetition,
    at least [min] of them. *)
Lemma group_content (pre : regex) :
  plain pre = true ->
  forall (post : regex) (g : bool) (min : nat) (p : ascii -> bool),
    plain post = true ->
    forall prev pos rest gs ge before m,
      String.length before = pos ->
      match_here (pre ++ Open :: Rep g min p :: Close :: post) prev pos rest gs ge
      = Some m ->
      exists taken : string,
        all_in p taken = true
        /\ (min <= String.length taken)%nat
        /\ group1 (before ++ rest) m = taken.
Proof.
  induction pre as [|a pre IH]; intros Hpre post g min p Hpost prev pos rest gs ge
    before m Hlen H.
  - cbn [app] in H. cbn [match_here] in H.
    change ((fix rep (n : nat) (prev0 : option ascii) (pos0 : nat) (rest0 : string)
               {struct rest0} : option span := _) 0%nat prev pos rest)
      with (rep_loop (fun prev pos' rest => match_here (Close :: post) prev pos' rest pos ge)
              g min p 0 prev pos rest) in H.
    apply rep_loop_spec in H.
    destruct H as (taken & rest' & prev' & -> & Hall & Hmin & H).
    cbn [match_here] in H. apply (plain_offsets post Hpost) in H.
    destruct H as [Hs He].
    exists taken. split; [exact Hall|]. split; [lia|].
    unfold group1. rewrite Hs, He.
    replace (pos + String.length taken - pos)%nat with (String.length taken) by lia.
    rewrite <- Hlen.
    replace (String.length before) with (String.length before + 0)%nat at 1 by lia.
    rewrite substring_app_skip. apply substring_prefix.
  - destruct a; cbn [plain] in Hpre; try discriminate; cbn [app] in H.
    + cbn [match_here] in H. destruct (at_bol prev); [|discriminate].
      eapply IH; eassumption.
    + cbn [match_here] in H. destruct (at_eol rest); [|discriminate].
      eapply IH; eassumption.
    + cbn [match_here] in H. destruct rest as [|c rest]; [discriminate|].
      destruct (p0 c); [|discriminate].
      assert (Hlen' : String.length (before ++ String c EmptyString) = S pos)
        by (rewrite length_app; cbn [String.length]; lia).
      destruct (IH Hpre post g min p Hpost _ _ _ _ _ _ m Hlen' H)
        as (taken & Hall & Hmin & Hg).
      exists taken. rewrite string_app_assoc in Hg. cbn [String.append] in Hg. auto.
    + rewrite match_here_Rep in H. apply rep_loop_spec in H.
      destruct H as (taken0 & rest' & prev' & -> & _ & _ & H).
      assert (Hlen' : String.length (before ++ taken0)
                      = (pos + String.length taken0)%nat)
        by (rewrite length_app; lia).
      destruct (IH Hpre post g min p Hpost _ _ _ _ _ _ m Hlen' H)
        as (taken & Hall & Hmin & Hg).
      exists taken. rewrite string_app_assoc in Hg. auto.
Qed.

Lemma at_offset_split (k : nat) :
  forall (prev : option ascii) (text : string) (prev' : option ascii) (rest' : string),
    at_offset k prev text = Some (prev', rest') ->
    exists before : string,
      text = (before ++ rest')%string /\ String.length before = k.
Proof.
  induction k as [|k IH]; intros prev text prev' rest' H; cbn [at_offset] in H.
  - injection H as _ <-. exists EmptyString. auto.
  - destruct text as [|c text]; [discriminate|].
    destruct (IH _ _ _ _ H) as (before & -> & Hlen).
    exists (String c before). cbn [String.append String.length]. auto.
Qed.

(** What [search] finds for a pattern with a group of the given
    shape. *)
Lemma search_group (pre post : regex) (g : bool) (min : nat) (p : ascii -> bool)
  (text : string) (f : found) :
  plain pre = true -> plain post = true ->
  search (pre ++ Open :: Rep g min p :: Close :: post) text = Some f ->
  all_in p (group1 text (matched f)) = true
  /\ (min <= String.length (group1 text (matched f)))%nat.
Proof.
  intros Hpre Hpost H. unfold search in H.
  apply search_from_Some in H. destruct H as (k & _ & Hm & _).
  unfold match_from in Hm.
  destruct (at_offset k None text) as [[prev' rest']|] eqn:E; [|discriminate].
  apply at_offset_split in E. destruct E as (before & -> & Hlen).
  cbn [Nat.add] in Hm.
  destruct (group_content pre Hpre post g min p Hpost _ _ _ _ _ before _ Hlen Hm)
    as (taken & Hall & Hmin & ->).
  auto.
Qed.

End GroupFacts.

(** X19.  Whatever the text and the file, [extract_namespace] returns
    either the sentinel or a well-formed name: a non-empty string of word
    characters and dots.  A returned name therefore holds no separator of
    the report formats: no comma, no whitespace. *)
Theorem extracted_namespace_well_formed :
  forall content filepath : string,
    let ns := NamespaceParser.extract_namespace content filepath in
    ns = NamespaceParser.global
    \/ (Regex.all_in Regex.word_or_dot ns = true
        /\ (1 <= String.length ns)%nat
        /\ Regex.all_in (fun c => negb (Ascii.eqb c ",") && negb (Py.isspace c)) ns
           = true).
Proof.
  assert (Hsep : forall ns, Regex.all_in Regex.word_or_dot ns = true ->
                   Regex.all_in (fun c => negb (Ascii.eqb c ",") && negb (Py.isspace c)) ns
                   = true).
  { induction ns as [|c ns IH]; cbn [Regex.all_in]; [reflexivity|].
    intros H. apply andb_true_iff in H. destruct H as [Hc Hns].
    rewrite (IH Hns), andb_true_r. clear IH Hns.
    destruct c as [[] [] [] [] [] [] [] []]; vm_compute in Hc |- *;
      congruence. }
  assert (Hfound : forall pre post text f,
             Regex.plain pre = true -> Regex.plain post = true ->
             Regex.search (pre ++ Regex.Open :: Regex.Rep true 1 Regex.word_or_dot
                               :: Regex.Close :: post) text = Some f ->
             let ns := Regex.group1 text (Regex.matched f) in
             ns = NamespaceParser.global
             \/ (Regex.all_in Regex.word_or_dot ns = true
                 /\ (1 <= String.length ns)%nat
                 /\ Regex.all_in (fun c => negb (Ascii.eqb c ",") && negb (Py.isspace c)) ns
                    = true)).
  { intros pre post text f Hpre Hpost H. cbv zeta. right.
    destruct (search_group pre post true 1 Regex.word_or_dot text f Hpre Hpost H)
      as [Hall Hlen].
    auto. }
  intros content filepath. cbv zeta. unfold NamespaceParser.extract_namespace.
  destruct (String.eqb (Py.strip content) ""); [now left|].
  destruct (Py.endswith filepath ".cs").
  - unfold NamespaceParser._extract_csharp_namespace.
    destruct (Regex.search NamespaceParser.CSHARP_FILE_SCOPED _) as [f|] eqn:E.
    + apply (Hfound ([Regex.Bol; Regex.Rep true 0 Regex.space]
                       ++ Regex.lit "namespace" ++ [Regex.Rep true 1 Regex.space])
               [Regex.Rep true 0 Regex.space; Regex.Chr (Regex.only ";")]);
        [reflexivity | reflexivity | exact E].
    + destruct (Regex.search NamespaceParser.CSHARP_TRADITIONAL _) as [f|] eqn:E';
        [|now left].
      apply (Hfound ([Regex.Bol; Regex.Rep true 0 Regex.space]
                       ++ Regex.lit "namespace" ++ [Regex.Rep true 1 Regex.space])
               [Regex.Rep true 0 Regex.space; Regex.Chr (Regex.only "{")]);
        [reflexivity | reflexivity | exact E'].
  - destruct (Py.endswith filepath ".vb"); [|now left].
    unfold NamespaceParser._extract_vbnet_namespace.
    destruct (Regex.search NamespaceParser.VBNET_NAMESPACE _) as [f|] eqn:E; [|now left].
    apply (Hfound ([Regex.Bol; Regex.Rep true 0 Regex.space]
                     ++ Regex.lit_nocase "Namespace" ++ [Regex.Rep true 1 Regex.space])
             []);
      [reflexivity | reflexivity | exact E].
Qed.

(** ** Decimal numbers and numstat lines *)

Section StrFacts.

Lemma all_in_impl (p q : ascii -> bool) (s : string) :
  (forall c, p c = true -> q c = true) ->
  Regex.all_in p s = true -> Regex.all_in q s = true.
Proof.
  intros Hpq. induction s as [|c s IH]; cbn [Regex.all_in]; [reflexivity|].
  intros H. apply andb_true_iff in H. destruct H as [Hc Hs].
  now rewrite (Hpq c Hc), (IH Hs).
Qed.

Lemma all_in_app (p : ascii -> bool) (x y : string) :
  Regex.all_in p (x ++ y) = Regex.all_in p x && Regex.all_in p y.
Proof.
  induction x as [|c x IH]; cbn [String.append Regex.all_in]; [reflexivity|].
  now rewrite IH, andb_assoc.
Qed.


Lemma digit_char_spec (d : Z) :
  0 <= d < 10 ->
  Py.isdigit (Py.digit_char d) = true /\ Py.digit_value (Py.digit_char d) = d.
Proof.
  intros H.
  assert (Hd : d = 0 \/ d = 1 \/ d = 2 \/ d = 3 \/ d = 4 \/ d = 5 \/ d = 6
               \/ d = 7 \/ d = 8 \/ d = 9) by lia.
  repeat (destruct Hd as [->|Hd]; [split; reflexivity|]).
  subst d. split; reflexivity.
Qed.



Lemma render_all_digits (fuel : nat) :
  forall (n : Z) (tail : string),
    0 <= n -> Regex.all_in Py.isdigit tail = true ->
    Regex.all_in Py.isdigit (Py.render_digits fuel n tail) = true.
Proof.
  induction fuel as [|fuel IH]; intros n tail Hn Ht; cbn [Py.render_digits].
  - cbn [Regex.all_in]. rewrite Ht.
    now rewrite (proj1 (digit_char_spec (n mod 10) (Z.mod_pos_bound n 10 ltac:(lia)))).
  - destruct (n <? 10) eqn:E.
    + apply Z.ltb_lt in E. cbn [Regex.all_in]. rewrite Ht.
      now rewrite (proj1 (digit_char_spec n ltac:(lia))).
    + apply IH; [apply Z.div_pos; lia|].
      cbn [Regex.all_in]. rewrite Ht.
      now rewrite (proj1 (digit_char_spec (n mod 10) (Z.mod_pos_bound n 10 ltac:(lia)))).
Qed.









Lemma split_last (sep : ascii) (x : string) :
  Regex.all_in (fun c => negb (Ascii.eqb c sep)) x = true ->
  Py.split sep x = [x].
Proof.
  induction x as [|c x IH]; cbn [Regex.all_in Py.split]; [reflexivity|].
  intros H. apply andb_true_iff in H. destruct H as [Hc Hx].
  apply negb_true_iff in Hc. rewrite Hc, (IH Hx). reflexivity.
Qed.

End StrFacts.



(** ** The tabular export *)

Section CsvFacts.
Import OutputFormatter.

Lemma split_nonempty (sep : ascii) (s : string) : Py.split sep s <> [].
Proof.
  destruct s as [|c s]; cbn [Py.split]; [discriminate|].
  destruct (Ascii.eqb c sep); [discriminate|].
  destruct (Py.split sep s); discriminate.
Qed.

Lemma split_app_sep (sep : ascii) (x y : string) :
  Py.split sep (x ++ String sep y) = Py.split sep x ++ Py.split sep y.
Proof.
  induction x as [|c x IH]; cbn [String.append Py.split].
  - now rewrite Ascii.eqb_refl.
  - rewrite IH. destruct (Ascii.eqb c sep); [reflexivity|].
    pose proof (split_nonempty sep x) as Hne.
    destruct (Py.split sep x) as [|f fs]; [congruence | reflexivity].
Qed.

Lemma contains_char (s : string) (a : ascii) :
  Py.contains s (String a EmptyString) = false ->
  Regex.all_in (fun c => negb (Ascii.eqb c a)) s = true.
Proof.
  induction s as [|c s IH]; cbn [Regex.all_in]; [reflexivity|].
  cbn [Py.contains Py.startswith]. intros H.
  apply orb_false_iff in H. destruct H as [Hc Hs].
  replace (Py.startswith s EmptyString) with true in Hc by (destruct s; reflexivity).
  rewrite andb_true_r in Hc. rewrite (IH Hs), andb_true_r.
  rewrite Ascii.eqb_sym. now rewrite Hc.
Qed.

Lemma csv_safe_spec (s : string) :
  csv_safe s = true ->
  Regex.all_in (fun c => negb (Ascii.eqb c ",")) s = true
  /\ Regex.all_in (fun c => negb (Ascii.eqb c Py.newline)) s = true.
Proof.
  unfold csv_safe. intros H. apply andb_true_iff in H. destruct H as [Hc Hn].
  apply negb_true_iff in Hc, Hn. split; now apply contains_char.
Qed.

(** What [str] writes: digits and at most a sign. *)
Lemma str_chars (n : Z) :
  Regex.all_in (fun c => Py.isdigit c || Ascii.eqb c "-") (Py.str n) = true.
Proof.
  unfold Py.str. destruct (n <? 0) eqn:E.
  - apply Z.ltb_lt in E. cbn [Regex.all_in].
    rewrite Ascii.eqb_refl, orb_true_r. cbn [andb].
    apply (all_in_impl Py.isdigit); [intros c ->; reflexivity|].
    apply render_all_digits; [lia | reflexivity].
  - apply Z.ltb_ge in E.
    apply (all_in_impl Py.isdigit); [intros c ->; reflexivity|].
    apply render_all_digits; [lia | reflexivity].
Qed.

Lemma number_class (c : ascii) :
  Py.isdigit c || Ascii.eqb c "-" = true ->
  negb (Ascii.eqb c ",") = true /\ negb (Ascii.eqb c Py.newline) = true.
Proof.
  destruct c as [[] [] [] [] [] [] [] []]; vm_compute; intros H;
    split; congruence.
Qed.

Lemma str_no_comma (n : Z) :
  Regex.all_in (fun c => negb (Ascii.eqb c ",")) (Py.str n) = true.
Proof.
  apply (all_in_impl _ _ _ (fun c H => proj1 (number_class c H)) (str_chars n)).
Qed.

Lemma str_no_newline (n : Z) :
  Regex.all_in (fun c => negb (Ascii.eqb c Py.newline)) (Py.str n) = true.
Proof.
  apply (all_in_impl _ _ _ (fun c H => proj2 (number_class c H)) (str_chars n)).
Qed.

Lemma pattern_name_safe (p : PatternDetector.pattern) :
  Py.split "," (PatternDetector.pattern_name p) = [PatternDetector.pattern_name p]
  /\ Regex.all_in (fun c => negb (Ascii.eqb c Py.newline))
       (PatternDetector.pattern_name p) = true.
Proof. destruct p; split; reflexivity. Qed.

(** Rows split on the comma. *)
Lemma csv_row_enhanced_split (row : string * Metrics.t) :
  Py.split "," (csv_row_enhanced row)
  = Py.split "," (fst row) ++ tl (csv_fields_enhanced row).
Proof.
  unfold csv_row_enhanced, csv_fields_enhanced. cbn [String.append tl].
  rewrite !split_app_sep, !(split_last _ _ (str_no_comma _)).
  rewrite (proj1 (pattern_name_safe _)). reflexivity.
Qed.

Lemma csv_row_split (row : string * LegacyMetrics.t) :
  Py.split "," (csv_row row) = Py.split "," (fst row) ++ tl (csv_fields row).
Proof.
  unfold csv_row, csv_fields. cbn [String.append tl].
  rewrite !split_app_sep, !(split_last _ _ (str_no_comma _)). reflexivity.
Qed.

Lemma csv_row_enhanced_line (row : string * Metrics.t) :
  Regex.all_in (fun c => negb (Ascii.eqb c Py.newline)) (fst row) = true ->
  Regex.all_in (fun c => negb (Ascii.eqb c Py.newline)) (csv_row_enhanced row) = true.
Proof.
  intros H. unfold csv_row_enhanced.
  rewrite !all_in_app, H, !str_no_newline, (proj2 (pattern_name_safe _)).
  reflexivity.
Qed.

Lemma csv_row_line (row : string * LegacyMetrics.t) :
  Regex.all_in (fun c => negb (Ascii.eqb c Py.newline)) (fst row) = true ->
  Regex.all_in (fun c => negb (Ascii.eqb c Py.newline)) (csv_row row) = true.
Proof.
  intros H. unfold csv_row.
  rewrite !all_in_app, H, !str_no_newline. reflexivity.
Qed.

(** Joining lines and splitting them again. *)
Lemma split_join (sep : ascii) (x : string) (xs : list string) :
  Forall (fun l => Regex.all_in (fun c => negb (Ascii.eqb c sep)) l = true) (x :: xs) ->
  Py.split sep (Py.join (String sep EmptyString) (x :: xs)) = x :: xs.
Proof.
  revert x. induction xs as [|y ys IH]; intros x H.
  - cbn [Py.join]. apply split_last. now inversion H.
  - inversion H as [|? ? Hx Hrest]; subst.
    change (Py.join (String sep EmptyString) (x :: y :: ys))
      with (x ++ String sep (Py.join (String sep EmptyString) (y :: ys)))%string.
    rewrite split_app_sep, (split_last _ _ Hx), (IH y Hrest). reflexivity.
Qed.

End CsvFacts.

(** X21.  The enhanced tabular export can be read back: when no namespace
    holds a comma or a line break, splitting the text of
    [format_csv_enhanced] into lines and each line on the comma gives the
    six header names followed, row by row and in the order of the data,
    by the namespace, its four counts in decimal and its pattern label. *)
Theorem format_csv_enhanced_reads_back :
  forall data : list (string * Metrics.t),
    Forall (fun row => OutputFormatter.csv_safe (fst row) = true) data ->
    map (Py.split ",")
      (Py.split Py.newline (OutputFormatter.format_csv_enhanced data))
    = ["namespace"; "added"; "deleted"; "total"; "files"; "pattern"]
        :: map OutputFormatter.csv_fields_enhanced data.
Proof.
  intros data Hsafe. unfold OutputFormatter.format_csv_enhanced.
  rewrite split_join.
  - cbn [map]. f_equal. rewrite map_map. apply map_ext_in.
    intros row Hin. rewrite Forall_forall in Hsafe.
    destruct (csv_safe_spec _ (Hsafe row Hin)) as [Hc _].
    rewrite csv_row_enhanced_split, (split_last _ _ Hc). reflexivity.
  - constructor; [reflexivity|]. apply Forall_map.
    apply (Forall_impl _ (P := fun row => OutputFormatter.csv_safe (fst row) = true));
      [|exact Hsafe].
    intros row H. apply csv_row_enhanced_line. now apply csv_safe_spec.
Qed.

Lemma format_csv_enhanced_reads_back_witness :
  map (Py.split ",")
    (Py.split Py.newline
       (OutputFormatter.format_csv_enhanced
          [("Company.Orders", Metrics.mk 1000 900 1900 2 [] PatternDetector.Churn);
           ("(global)", Metrics.mk 45 23 68 1 [] PatternDetector.Normal)]))
  = [["namespace"; "added"; "deleted"; "total"; "files"; "pattern"];
     ["Company.Orders"; "1000"; "900"; "1900"; "2"; "churn"];
     ["(global)"; "45"; "23"; "68"; "1"; "normal"]].
Proof.
  apply (format_csv_enhanced_reads_back
           [("Company.Orders", Metrics.mk 1000 900 1900 2 [] PatternDetector.Churn);
            ("(global)", Metrics.mk 45 23 68 1 [] PatternDetector.Normal)]).
  repeat constructor.
Defined.

(** X22.  The legacy tabular export can be read back in the same way:
    three header names, then for every namespace its name, its changed
    lines and its file count. *)
Theorem format_csv_reads_back :
  forall data : list (string * LegacyMetrics.t),
    Forall (fun row => OutputFormatter.csv_safe (fst row) = true) data ->
    map (Py.split ",") (Py.split Py.newline (OutputFormatter.format_csv data))
    = ["namespace"; "lines_changed"; "file_count"]
        :: map OutputFormatter.csv_fields data.
Proof.
  intros data Hsafe. unfold OutputFormatter.format_csv.
  rewrite split_join.
  - cbn [map]. f_equal. rewrite map_map. apply map_ext_in.
    intros row Hin. rewrite Forall_forall in Hsafe.
    destruct (csv_safe_spec _ (Hsafe row Hin)) as [Hc _].
    rewrite csv_row_split, (split_last _ _ Hc). reflexivity.
  - constructor; [reflexivity|]. apply Forall_map.
    apply (Forall_impl _ (P := fun row => OutputFormatter.csv_safe (fst row) = true));
      [|exact Hsafe].
    intros row H. apply csv_row_line. now apply csv_safe_spec.
Qed.

Lemma format_csv_reads_back_witness :
  map (Py.split ",")
    (Py.split Py.newline
       (OutputFormatter.format_csv
          [("Company.Orders", LegacyMetrics.mk 1900 2 []);
           ("(global)", LegacyMetrics.mk 68 1 [])]))
  = [["namespace"; "lines_changed"; "file_count"];
     ["Company.Orders"; "1900"; "2"];
     ["(global)"; "68"; "1"]].
Proof.
  apply (format_csv_reads_back
           [("Company.Orders", LegacyMetrics.mk 1900 2 []);
            ("(global)", LegacyMetrics.mk 68 1 [])]).
  repeat constructor.
Defined.

(** X23.  The export does not quote its fields: a row of
    [format_csv_enhanced] has five fields more than its namespace has
    when split on the comma, so a namespace with a comma in it (a
    submodule path can have one) gives a row of more than six fields. *)
Theorem csv_rows_are_not_quoted :
  forall (namespace : string) (m : Metrics.t),
    List.length (Py.split "," (OutputFormatter.csv_row_enhanced (namespace, m)))
    = (List.length (Py.split "," namespace) + 5)%nat
    /\ (Py.contains namespace "," = true ->
        (6 < List.length
               (Py.split "," (OutputFormatter.csv_row_enhanced (namespace, m))))%nat).
Proof.
  intros ns m.
  assert (Hlen : List.length (Py.split "," (OutputFormatter.csv_row_enhanced (ns, m)))
                 = (List.length (Py.split "," ns) + 5)%nat).
  { rewrite csv_row_enhanced_split, List.length_app. reflexivity. }
  split; [exact Hlen|]. intros Hc. rewrite Hlen.
  enough (2 <= List.length (Py.split "," ns))%nat by lia.
  clear Hlen. induction ns as [|c s IH]; [discriminate|].
  cbn [Py.contains Py.startswith] in Hc. cbn [Py.split].
  replace (Py.startswith s EmptyString) with true in Hc by (destruct s; reflexivity).
  destruct (Ascii.eqb c ",") eqn:E.
  - cbn [List.length]. pose proof (split_nonempty "," s).
    destruct (Py.split "," s); [congruence | cbn [List.length]; lia].
  - rewrite Ascii.eqb_sym, E in Hc. cbn [andb orb] in Hc.
    specialize (IH Hc).
    destruct (Py.split "," s); cbn [List.length] in *; lia.
Qed.
